(** * xmlbuilder3: a shallow embedding of [xmlbuilder3/__init__.py]

    The module defines two classes, [XMLNode] and [XMLBuilder], and two
    functions, [tobytes] and [tostr].  Nodes are mutable Python objects that
    are shared between the children lists of their parents and the scope
    stack of their document, so the embedding keeps an explicit object store:
    a node is named by its address, and every method is a computation over
    the store that may raise.  A raise keeps the store as it is at that
    point, as in Python. *)

From Stdlib Require Import String Ascii ZArith.
From stdpp Require Import base option list gmap strings.

Open Scope string_scope.
Open Scope list_scope.

(** ** Python values reaching the library *)

Definition addr := nat.      (* identity of an [XMLNode] object *)
Definition docref := nat.    (* identity of an [XMLBuilder] object *)

(** The values a caller can hand to the dynamically typed entry points. *)
#[warnings="-register-all"]
Inductive pyval : Type :=
  | PNone
  | PBool (b : bool)
  | PInt (z : Z)
  | PStr (s : string)
  | PList (items : list pyval)
  | PNode (a : addr)
  | PBuilder (d : docref).

(** [arg.__class__], as the error messages print it. *)
Inductive pyclass : Type :=
  | cls_NoneType | cls_bool | cls_int | cls_str | cls_list
  | cls_XMLNode | cls_XMLBuilder.

Definition class_of (v : pyval) : pyclass :=
  match v with
  | PNone => cls_NoneType
  | PBool _ => cls_bool
  | PInt _ => cls_int
  | PStr _ => cls_str
  | PList _ => cls_list
  | PNode _ => cls_XMLNode
  | PBuilder _ => cls_XMLBuilder
  end.

(** [isinstance(v, str)] *)
Definition isinstance_str (v : pyval) : bool :=
  match v with PStr _ => true | _ => false end.

(** [isinstance(v, (str, XMLNode))] *)
Definition isinstance_str_or_XMLNode (v : pyval) : bool :=
  match v with PStr _ | PNode _ => true | _ => false end.

(** Whether a value may be a dictionary key: lists are not hashable, the
    other values are (neither class of the module overrides [__hash__]). *)
Definition hashable (v : pyval) : bool :=
  match v with PList _ => false | _ => true end.

(** ** Exceptions *)

(** The three [ValueError] messages of [_xml_update], with the class they
    report. *)
Inductive value_error : Type :=
  | NonNamedArgument (c : pyclass)   (* "Non-named arguments should be string or XMLNode, not ..." *)
  | AttributeValue (c : pyclass)     (* "Attribute values should be string only, not ..." *)
  | AttributeName (c : pyclass).     (* "Attribute names should be string only, not ..." *)

Inductive type_error : Type :=
  | Unhashable (c : pyclass)         (* building [{name: val}] with a list as key *)
  | NoneNotCallable                  (* calling the result of a dead weak reference *)
  | NotSubscriptable                 (* [obj[key]] on a class without [__getitem__] *)
  | NoItemAssignment.                (* [obj[key] = v] on a class without [__setitem__] *)

Inductive exn : Type :=
  | ValueError (m : value_error)
  | AttributeError (name : string)
  | IndexError                       (* [pop] or [[-1]] / [[0]] on an empty list *)
  | TypeError (m : type_error)
  | RecursionError                   (* the interpreter's recursion limit *)
  | DanglingReference.               (* an address outside the store; no Python
                                        program can build one *)

(** ** Objects and the store *)

Record XMLNode : Type := mkXMLNode {
  _document : docref;                (* a [weakref.ref] to the owning builder *)
  _childs : list pyval;              (* List[Union[str, XMLNode]] *)
  _tag : string;
  _attrs : gmap string string        (* Dict[str, str] *)
}.

Record XMLBuilder : Type := mkXMLBuilder {
  _stack : list addr
}.

Record world : Type := mkWorld {
  nodes : list XMLNode;
  builders : list XMLBuilder
}.

Definition set_childs (cs : list pyval) (nd : XMLNode) : XMLNode :=
  mkXMLNode (_document nd) cs (_tag nd) (_attrs nd).

Definition set_attrs (m : gmap string string) (nd : XMLNode) : XMLNode :=
  mkXMLNode (_document nd) (_childs nd) (_tag nd) m.

(** ** Computations: store passing with exceptions *)

Inductive outcome (A : Type) : Type :=
  | Ok (a : A)
  | Raise (e : exn).
Arguments Ok {A} a.
Arguments Raise {A} e.

Definition M (A : Type) : Type := world -> outcome A * world.

Definition ret {A} (a : A) : M A := fun w => (Ok a, w).
Definition raise {A} (e : exn) : M A := fun w => (Raise e, w).
Definition bind {A B} (m : M A) (k : A -> M B) : M B :=
  fun w => match m w with
           | (Ok a, w') => k a w'
           | (Raise e, w') => (Raise e, w')
           end.

Declare Scope py_scope.
Delimit Scope py_scope with py.
Notation "x <- m ;; k" := (bind m (fun x => k))
  (at level 100, m at next level, right associativity) : py_scope.
Notation "m ;; k" := (bind m (fun _ => k))
  (at level 100, right associativity) : py_scope.
Open Scope py_scope.

(** [for x in l: body(x)] *)
Fixpoint for_each {A} (l : list A) (body : A -> M unit) : M unit :=
  match l with
  | [] => ret tt
  | x :: l' => body x ;; for_each l' body
  end.

(** Reading and writing one node of the store. *)
Definition get_node (a : addr) : M XMLNode :=
  fun w => match nodes w !! a with
           | Some nd => (Ok nd, w)
           | None => (Raise DanglingReference, w)
           end.

Definition modify_node (a : addr) (f : XMLNode -> XMLNode) : M unit :=
  fun w => match nodes w !! a with
           | Some nd => (Ok tt, mkWorld (<[a := f nd]> (nodes w)) (builders w))
           | None => (Raise DanglingReference, w)
           end.

(** Object creation: the new node gets the next free address. *)
Definition alloc_node (nd : XMLNode) : M addr :=
  fun w => (Ok (length (nodes w)), mkWorld (nodes w ++ [nd]) (builders w)).

Definition alloc_builder (b : XMLBuilder) : M docref :=
  fun w => (Ok (length (builders w)), mkWorld (nodes w) (builders w ++ [b])).

Definition get_stack (d : docref) : M (list addr) :=
  fun w => match builders w !! d with
           | Some b => (Ok (_stack b), w)
           | None => (Raise DanglingReference, w)
           end.

Definition set_stack (d : docref) (st : list addr) : M unit :=
  fun w => match builders w !! d with
           | Some _ => (Ok tt, mkWorld (nodes w) (<[d := mkXMLBuilder st]> (builders w)))
           | None => (Raise DanglingReference, w)
           end.

(** [ref()]: the builder a weak reference points to, or [None] once the
    builder is gone; the only use in the module calls the result at once,
    which on [None] is a [TypeError]. *)
Definition deref_call (d : docref) : M docref :=
  fun w => match builders w !! d with
           | Some _ => (Ok d, w)
           | None => (Raise (TypeError NoneNotCallable), w)
           end.

(** ** class XMLNode *)

(** The loop over [args] of [_xml_update]. *)
Definition check_arg (arg : pyval) : M unit :=
  if negb (isinstance_str_or_XMLNode arg)
  then raise (ValueError (NonNamedArgument (class_of arg)))
  else ret tt.

(** The loop over [kwargs.items()] of [_xml_update]: the value is tested
    before the key. *)
Definition check_kwarg (item : pyval * pyval) : M unit :=
  let (key, val) := item in
  if negb (isinstance_str val)
  then raise (ValueError (AttributeValue (class_of val)))
  else if negb (isinstance_str key)
  then raise (ValueError (AttributeName (class_of key)))
  else ret tt.

(** [d.update(kwargs)] on a [Dict[str, str]]: the items are written in
    iteration order.  It runs only after [check_kwarg] accepted every item,
    so each item is a pair of strings; the last branch is never taken
    ([dict_update_checked] below). *)
Definition dict_update (d : gmap string string) (kwargs : list (pyval * pyval))
  : gmap string string :=
  foldl (fun m item => match item with
                       | (PStr k, PStr v) => <[k := v]> m
                       | _ => m
                       end) d kwargs.

Definition XMLNode_xml_update (self : addr) (args : list pyval)
    (kwargs : list (pyval * pyval)) : M unit :=
  for_each args check_arg ;;
  modify_node self (fun nd => set_childs (_childs nd ++ args) nd) ;;
  for_each kwargs check_kwarg ;;
  modify_node self (fun nd => set_attrs (dict_update (_attrs nd) kwargs) nd).

Definition XMLNode__init__ (doc : docref) (tag : string) (args : list pyval)
    (kwargs : list (pyval * pyval)) : M addr :=
  self <- alloc_node (mkXMLNode doc [] tag ∅) ;;
  XMLNode_xml_update self args kwargs ;;
  ret self.

(** [__getattr__] is the hook Python calls for a name that ordinary lookup
    does not find on the object; the embedding is of the hook. *)
Definition XMLNode__getattr__ (self : addr) (name : string) : M addr :=
  if String.prefix "_ipython_" name then raise (AttributeError name)
  else
    nd <- get_node self ;;
    node <- XMLNode__init__ (_document nd) name [] [] ;;
    modify_node self (fun nd => set_childs (_childs nd ++ [PNode node]) nd) ;;
    ret node.

Definition XMLNode__call__ (self : addr) (args : list pyval)
    (kwargs : list (pyval * pyval)) : M addr :=
  XMLNode_xml_update self args kwargs ;;
  ret self.

Definition XMLNode__lshift__ (self : addr) (val : pyval) : M addr :=
  XMLNode_xml_update self [val] [] ;;
  ret self.

(** The dictionary display [{name: val}]: hashing the key comes first. *)
Definition dict_display1 (name val : pyval) : M (list (pyval * pyval)) :=
  if hashable name then ret [(name, val)]
  else raise (TypeError (Unhashable (class_of name))).

Definition XMLNode__setitem__ (self : addr) (name val : pyval) : M unit :=
  kwargs <- dict_display1 name val ;;
  XMLNode_xml_update self [] kwargs.

(** ** class XMLBuilder *)

(** [self._stack.pop()] *)
Definition stack_pop (self : docref) : M addr :=
  st <- get_stack self ;;
  match last st with
  | None => raise IndexError
  | Some top => set_stack self (removelast st) ;; ret top
  end.

(** [self._stack.append(obj)] *)
Definition stack_append (self : docref) (obj : addr) : M unit :=
  st <- get_stack self ;;
  set_stack self (st ++ [obj]).

(** [self._stack[-1]] *)
Definition stack_top (self : docref) : M addr :=
  st <- get_stack self ;;
  match last st with
  | None => raise IndexError
  | Some top => ret top
  end.

(** [self._stack[0]] *)
Definition stack_root (self : docref) : M addr :=
  st <- get_stack self ;;
  match st with
  | [] => raise IndexError
  | root :: _ => ret root
  end.

(** [__call__(obj)]: [None] pops, anything else is pushed.  The module
    itself calls it with [None] and with a node ([__exit__], [__enter__]),
    and so does the embedding. *)
Definition XMLBuilder__call__ (self : docref) (obj : option addr) : M docref :=
  match obj with
  | None => stack_pop self ;; ret self
  | Some o => stack_append self o ;; ret self
  end.

(** The builder object exists before its [__init__] body runs (the root
    gets a weak reference to it); its [_stack] is set last. *)
Definition XMLBuilder__init__ (root_name : string) (args : list pyval)
    (kwargs : list (pyval * pyval)) : M docref :=
  self <- alloc_builder (mkXMLBuilder []) ;;
  root <- XMLNode__init__ self root_name args kwargs ;;
  set_stack self [root] ;;
  ret self.

(** [getattr(self._stack[-1], name)] reaches the node's hook for the names
    ordinary lookup does not find on an [XMLNode]. *)
Definition XMLBuilder__getattr__ (self : docref) (name : string) : M addr :=
  if String.prefix "_ipython_" name then raise (AttributeError name)
  else
    top <- stack_top self ;;
    XMLNode__getattr__ top name.

Definition XMLBuilder__lshift__ (self : docref) (val : pyval) : M addr :=
  top <- stack_top self ;;
  XMLNode__lshift__ top val.

(** ** Scopes: the context-manager protocol of XMLNode *)

(** [__enter__] hands back the builder; [__exit__] ignores the three
    arguments that describe a pending exception and returns [None], so it
    pops on every way out of the block and lets the exception through. *)
Definition XMLNode__enter__ (self : addr) : M docref :=
  nd <- get_node self ;;
  doc <- deref_call (_document nd) ;;
  XMLBuilder__call__ doc (Some self).

Definition XMLNode__exit__ (self : addr) : M unit :=
  nd <- get_node self ;;
  doc <- deref_call (_document nd) ;;
  XMLBuilder__call__ doc None ;;
  ret tt.

(** ** Serialisation *)

(** What [_toxml] asks of the builder object it is given: the three methods
    [start], [data] and [end], each changing the builder's own state. *)
Class TreeBuilderLike (B : Type) : Type := {
  tb_start : string -> gmap string string -> B -> B;
  tb_data : string -> B -> B;
  tb_end : string -> B -> B
}.

(** A loop that threads the builder through the children. *)
Fixpoint for_fold {A B} (l : list A) (body : B -> A -> M B) (b : B) : M B :=
  match l with
  | [] => ret b
  | x :: l' => b' <- body b x ;; for_fold l' body b'
  end.

(** [_toxml]; [depth] is the number of Python frames still available, so
    that running out of it is the interpreter's [RecursionError].

    [child._toxml(builder)] is an attribute lookup followed by a call.  On
    a node it finds the method.  The other values never get into
    [_childs], which is written only after the [isinstance] test, but the
    lookup is defined on them all the same: an [XMLBuilder] has no
    [_toxml], so its [__getattr__] answers with the bound method of the
    node on top of its stack; on [None], a number or a list the lookup
    fails. *)
Fixpoint XMLNode_toxml {B} `{TreeBuilderLike B} (depth : nat) (self : addr)
    (builder : B) : M B :=
  match depth with
  | 0 => raise RecursionError
  | S depth' =>
      nd <- get_node self ;;
      b <- for_fold (_childs nd)
             (fun b child =>
                match child with
                | PStr s => ret (tb_data s b)
                | PNode c => XMLNode_toxml depth' c b
                | PBuilder d => top <- stack_top d ;; XMLNode_toxml depth' top b
                | _ => raise (AttributeError "_toxml")
                end)
             (tb_start (_tag nd) (_attrs nd) builder) ;;
      ret (tb_end (_tag nd) b)
  end.

(** The builder that only records what it is told. *)
Inductive event : Type :=
  | Start (tag : string) (attrs : gmap string string)
  | Data (text : string)
  | End (tag : string).

#[export] Instance recorder : TreeBuilderLike (list event) := {
  tb_start tag attrs b := b ++ [Start tag attrs];
  tb_data text b := b ++ [Data text];
  tb_end tag b := b ++ [End tag]
}.

Definition lift {A} (o : outcome A) : M A := fun w => (o, w).

Definition bytes := list Byte.byte.

(** A builder class: how to make an instance, its three event methods,
    and [close], which hands back the element tree. *)
Record builder_class (Element : Type) : Type := mkBuilderClass {
  instance_of : Type;
  methods : TreeBuilderLike instance_of;
  new : instance_of;
  close : instance_of -> outcome Element
}.
Arguments instance_of {Element}.
Arguments methods {Element}.
Arguments new {Element}.
Arguments close {Element}.

(** The host's XML facilities, which the module imports and does not
    define: the element tree a builder closes into, the class
    [xml.etree.ElementTree.TreeBuilder] (the default of [builder_cls]),
    [ElementTree.tostring], the codecs behind [bytes.decode] and
    [str.encode], [xml.dom.minidom.parseString(text).toprettyxml()], and
    the interpreter's recursion limit.  Each function may raise. *)
Record host : Type := mkHost {
  Element : Type;
  TreeBuilder : builder_class Element;
  tostring : Element -> string -> outcome bytes;
  decode : bytes -> string -> outcome string;
  encode : string -> string -> outcome bytes;
  parse_toprettyxml : string -> outcome string;
  recursion_limit : nat
}.

Definition tobytes (h : host) (doc : docref) (encoding : option string)
    (builder_cls : option (builder_class (Element h))) (pretty : option bool)
  : M bytes :=
  let encoding := default "utf8" encoding in
  let builder_cls := default (TreeBuilder h) builder_cls in
  let pretty := default false pretty in
  let builder := new builder_cls in
  root <- stack_root doc ;;
  builder <- XMLNode_toxml (H := methods builder_cls) (recursion_limit h) root builder ;;
  tree <- lift (close builder_cls builder) ;;
  res <- lift (tostring h tree encoding) ;;
  if pretty then
    text <- lift (decode h res encoding) ;;
    pretty_text <- lift (parse_toprettyxml h text) ;;
    lift (encode h pretty_text encoding)
  else ret res.

Definition tostr (h : host) (doc : docref) (encoding : option string)
    (builder_cls : option (builder_class (Element h))) (pretty : option bool)
  : M string :=
  let encoding := default "utf8" encoding in
  res <- tobytes h doc (Some encoding) builder_cls pretty ;;
  lift (decode h res encoding).

(** ** Item access on the two classes

    [obj[key]] and [obj[key] = v] look [__getitem__] and [__setitem__] up
    in the class of [obj]; the [__getattr__] hook is not consulted for
    them.  These are the names each class body binds. *)
Definition XMLNode_class : list string :=
  ["__init__"; "_xml_update"; "_debug"; "_toxml"; "__setitem__";
   "__getattr__"; "__call__"; "__lshift__"; "__enter__"; "__exit__"].

Definition XMLBuilder_class : list string :=
  ["__init__"; "__getattr__"; "__lshift__"; "__call__"; "_debug"].

Definition special_method (cls : list string) (name : string)
    (otherwise : type_error) : M unit :=
  if existsb (String.eqb name) cls then ret tt
  else raise (TypeError otherwise).

(** The first step of [doc[key]] and of [doc[key] = v] on a builder. *)
Definition XMLBuilder_subscript : M unit :=
  special_method XMLBuilder_class "__getitem__" NotSubscriptable.

Definition XMLBuilder_item_assignment : M unit :=
  special_method XMLBuilder_class "__setitem__" NoItemAssignment.

(** * Vocabulary of the statements *)

(** What the two checking loops of [_xml_update] raise, if anything, as a
    function of the arguments: the error of the first positional argument
    that is neither a string nor a node, and the error of the first named
    argument whose value or name is not a string. *)
Definition args_error (args : list pyval) : option exn :=
  match List.find (fun a => negb (isinstance_str_or_XMLNode a)) args with
  | Some a => Some (ValueError (NonNamedArgument (class_of a)))
  | None => None
  end.

Definition kwarg_error (item : pyval * pyval) : option exn :=
  let (key, val) := item in
  if negb (isinstance_str val)
  then Some (ValueError (AttributeValue (class_of val)))
  else if negb (isinstance_str key)
  then Some (ValueError (AttributeName (class_of key)))
  else None.

Fixpoint kwargs_error (kwargs : list (pyval * pyval)) : option exn :=
  match kwargs with
  | [] => None
  | item :: rest =>
      match kwarg_error item with
      | Some e => Some e
      | None => kwargs_error rest
      end
  end.

(** The store with the node at [a] replaced. *)
Definition with_node (a : addr) (nd : XMLNode) (w : world) : world :=
  mkWorld (<[a := nd]> (nodes w)) (builders w).

(** The store with the stack of builder [d] replaced. *)
Definition with_stack (d : docref) (st : list addr) (w : world) : world :=
  mkWorld (nodes w) (<[d := mkXMLBuilder st]> (builders w)).

(** The store after the allocation of one more node. *)
Definition with_new_node (nd : XMLNode) (w : world) : world :=
  mkWorld (nodes w ++ [nd]) (builders w).

(** The world the examples run in: [doc = XMLBuilder('root')] followed by
    [doc.greeting]; the root is node 0 and [greeting] is node 1. *)
Definition empty_world : world := mkWorld [] [].

Definition greeting_world : world :=
  snd ((doc <- XMLBuilder__init__ "root" [] [] ;;
        XMLBuilder__getattr__ doc "greeting") empty_world).

(** [greeting_world] after [doc.name]: the root has two children, nodes 1
    and 2. *)
Definition two_children_world : world :=
  snd (XMLBuilder__getattr__ 0 "name" greeting_world).

(** The fold of [for_fold] when the body cannot touch the store. *)
Fixpoint fold_outcome {A B} (l : list A) (body : B -> A -> outcome B) (b : B)
  : outcome B :=
  match l with
  | [] => Ok b
  | x :: l' =>
      match body b x with
      | Ok b' => fold_outcome l' body b'
      | Raise e => Raise e
      end
  end.

(** [self._stack[-1]] as a function of the table of builders. *)
Definition top_of (bs : list XMLBuilder) (d : docref) : outcome addr :=
  match bs !! d with
  | None => Raise DanglingReference
  | Some b =>
      match last (_stack b) with
      | None => Raise IndexError
      | Some top => Ok top
      end
  end.

(** What [_toxml] hands back, as a function of the store. *)
Fixpoint rendered {B} `{TreeBuilderLike B} (depth : nat) (w : world)
    (self : addr) (builder : B) : outcome B :=
  match depth with
  | 0 => Raise RecursionError
  | S depth' =>
      match nodes w !! self with
      | None => Raise DanglingReference
      | Some nd =>
          match fold_outcome (_childs nd)
                  (fun b child =>
                     match child with
                     | PStr s => Ok (tb_data s b)
                     | PNode c => rendered depth' w c b
                     | PBuilder d =>
                         match top_of (builders w) d with
                         | Ok top => rendered depth' w top b
                         | Raise e => Raise e
                         end
                     | _ => Raise (AttributeError "_toxml")
                     end)
                  (tb_start (_tag nd) (_attrs nd) builder) with
          | Ok b => Ok (tb_end (_tag nd) b)
          | Raise e => Raise e
          end
      end
  end.






(** ** The calls of a client program

    One constructor of [op] per entry point of the two classes, each with
    the arguments of the call; [run_op] makes the call and forgets what it
    returns. *)
Inductive op : Type :=
  | NewBuilder (root_name : string) (args : list pyval) (kwargs : list (pyval * pyval))
  | NodeGetattr (self : addr) (name : string)
  | NodeCall (self : addr) (args : list pyval) (kwargs : list (pyval * pyval))
  | NodeLshift (self : addr) (val : pyval)
  | NodeSetitem (self : addr) (name val : pyval)
  | NodeEnter (self : addr)
  | NodeExit (self : addr)
  | BuilderGetattr (doc : docref) (name : string)
  | BuilderLshift (doc : docref) (val : pyval)
  | BuilderCall (doc : docref) (obj : option addr).

Definition ignore {A} (m : M A) : M unit := m ;; ret tt.

Definition run_op (o : op) : M unit :=
  match o with
  | NewBuilder root_name args kwargs => ignore (XMLBuilder__init__ root_name args kwargs)
  | NodeGetattr self name => ignore (XMLNode__getattr__ self name)
  | NodeCall self args kwargs => ignore (XMLNode__call__ self args kwargs)
  | NodeLshift self val => ignore (XMLNode__lshift__ self val)
  | NodeSetitem self name val => XMLNode__setitem__ self name val
  | NodeEnter self => ignore (XMLNode__enter__ self)
  | NodeExit self => XMLNode__exit__ self
  | BuilderGetattr doc name => ignore (XMLBuilder__getattr__ doc name)
  | BuilderLshift doc val => ignore (XMLBuilder__lshift__ doc val)
  | BuilderCall doc obj => ignore (XMLBuilder__call__ doc obj)
  end.



(** A client program: calls made one after the other, the program going on
    after a call that raised (as under [try]/[except]).  [refs_ok_along]
    checks the node arguments of each call in the store the call runs in. *)
Fixpoint run_ops (os : list op) (w : world) : world :=
  match os with
  | [] => w
  | o :: os' => run_ops os' (snd (run_op o w))
  end.


(** ** Well-formed stores

    Every child is a string or a node that exists, every node belongs to a
    builder that exists, and every stack holds nodes that exist. *)
Definition child_ok (n : nat) (c : pyval) : bool :=
  match c with
  | PStr _ => true
  | PNode a => Nat.ltb a n
  | _ => false
  end.

Definition node_ok (n m : nat) (nd : XMLNode) : bool :=
  forallb (child_ok n) (_childs nd) && Nat.ltb (_document nd) m.

Definition builder_ok (n : nat) (b : XMLBuilder) : bool :=
  forallb (fun a => Nat.ltb a n) (_stack b).

Definition wf (w : world) : bool :=
  forallb (node_ok (length (nodes w)) (length (builders w))) (nodes w)
  && forallb (builder_ok (length (nodes w))) (builders w).

(** ** Stores whose children are younger than their parents

    [forward w]: every child of the node at address [i] is a string or a
    node at an address between [i] and the end of the store.  Attribute
    access builds such stores, since the child is created after the parent. *)
Definition forward_child (i n : nat) (c : pyval) : bool :=
  match c with
  | PStr _ => true
  | PNode a => Nat.ltb i a && Nat.ltb a n
  | _ => false
  end.

Fixpoint forward_from (i n : nat) (l : list XMLNode) : bool :=
  match l with
  | [] => true
  | nd :: l' => forallb (forward_child i n) (_childs nd) && forward_from (S i) n l'
  end.

Definition forward (w : world) : bool :=
  forward_from 0 (length (nodes w)) (nodes w).

(** The node arguments of a call are younger than the node they are
    appended to ([top_of] for the calls that go through a builder); a new
    root is the youngest node, so it takes no node argument. *)
Definition later_ref (self n : nat) (v : pyval) : bool :=
  match v with
  | PNode a => Nat.ltb self a && Nat.ltb a n
  | _ => true
  end.

Definition op_refs_later (w : world) (o : op) : bool :=
  let n := length (nodes w) in
  match o with
  | NewBuilder _ args _ => forallb (later_ref n n) args
  | NodeCall self args _ => forallb (later_ref self n) args
  | NodeLshift self val => later_ref self n val
  | BuilderLshift doc val =>
      match top_of (builders w) doc with
      | Ok top => later_ref top n val
      | Raise _ => true
      end
  | _ => true
  end.

Fixpoint refs_later_along (os : list op) (w : world) : bool :=
  match os with
  | [] => true
  | o :: os' => op_refs_later w o && refs_later_along os' (snd (run_op o w))
  end.

(** ** Event sequences *)


(** Sending recorded events to a builder. *)
Definition apply_event {B} `{TreeBuilderLike B} (b : B) (ev : event) : B :=
  match ev with
  | Start tag attrs => tb_start tag attrs b
  | Data text => tb_data text b
  | End tag => tb_end tag b
  end.

Definition replay {B} `{TreeBuilderLike B} (evs : list event) (b : B) : B :=
  foldl apply_event b evs.

(** A recorder's result sent on to another builder. *)
Definition replayed {B} `{TreeBuilderLike B} (b0 : B)
    (o : outcome (list event)) : outcome B :=
  match o with
  | Ok evs => Ok (replay evs b0)
  | Raise e => Raise e
  end.

(** The store after the creation of one more builder. *)
Definition with_new_builder (b : XMLBuilder) (w : world) : world :=
  mkWorld (nodes w) (builders w ++ [b]).

(** A host for the examples: the element tree is the list of events, the
    default builder class is the recorder, and the serialiser writes one
    byte per event. *)
Definition recorder_class : builder_class (list event) :=
  mkBuilderClass (list event) (list event) recorder [] Ok.

Definition example_host : host :=
  mkHost (list event) recorder_class
    (fun tree _ => Ok (map (fun _ => Byte.x00) tree))
    (fun _ _ => Ok "")
    (fun _ _ => Ok [])
    (fun text => Ok text)
    8.


(** * Properties *)

(** ** The store, the checking loops, [_xml_update] and the constructor *)

Lemma world_eta w : mkWorld (nodes w) (builders w) = w.
Proof. by destruct w. Qed.

Lemma set_childs_same nd : set_childs (_childs nd) nd = nd.
Proof. by destruct nd. Qed.

Lemma with_node_same a nd w : nodes w !! a = Some nd -> with_node a nd w = w.
Proof.
  intros Hnd. unfold with_node. rewrite list_insert_id by done. apply world_eta.
Qed.

Lemma with_node_twice a nd nd' w :
  with_node a nd' (with_node a nd w) = with_node a nd' w.
Proof. unfold with_node; simpl. by rewrite list_insert_insert_eq. Qed.

Lemma with_node_lookup a nd nd0 w :
  nodes w !! a = Some nd0 -> nodes (with_node a nd w) !! a = Some nd.
Proof.
  intros Hnd. simpl. apply list_lookup_insert_eq. by eapply lookup_lt_Some.
Qed.

Lemma with_node_lookup_ne a b nd w :
  a <> b -> nodes (with_node a nd w) !! b = nodes w !! b.
Proof. intros Hne. simpl. by apply list_lookup_insert_ne. Qed.

Lemma for_each_check_arg args w :
  for_each args check_arg w =
  match args_error args with
  | Some e => (Raise e, w)
  | None => (Ok tt, w)
  end.
Proof.
  unfold args_error. induction args as [|a args IH]; simpl; [done|].
  unfold bind, check_arg at 1.
  destruct (isinstance_str_or_XMLNode a); simpl; [apply IH | done].
Qed.

Lemma for_each_check_kwarg kwargs w :
  for_each kwargs check_kwarg w =
  match kwargs_error kwargs with
  | Some e => (Raise e, w)
  | None => (Ok tt, w)
  end.
Proof.
  induction kwargs as [|[key val] kwargs IH]; simpl; [done|].
  unfold bind.
  destruct (isinstance_str val); simpl; [|done].
  destruct (isinstance_str key); simpl; [apply IH | done].
Qed.

(** [_xml_update] in one equation: which error, and which store. *)
Lemma xml_update_spec self args kwargs w :
  XMLNode_xml_update self args kwargs w =
  match args_error args with
  | Some e => (Raise e, w)
  | None =>
      match nodes w !! self with
      | None => (Raise DanglingReference, w)
      | Some nd =>
          let nd1 := set_childs (_childs nd ++ args) nd in
          match kwargs_error kwargs with
          | Some e => (Raise e, with_node self nd1 w)
          | None =>
              (Ok tt,
               with_node self (set_attrs (dict_update (_attrs nd) kwargs) nd1) w)
          end
      end
  end.
Proof.
  unfold XMLNode_xml_update, bind. rewrite for_each_check_arg.
  destruct (args_error args); [done|].
  unfold modify_node at 1.
  destruct (nodes w !! self) as [nd|] eqn:Hnd; [|done].
  rewrite for_each_check_kwarg. fold (with_node self (set_childs (_childs nd ++ args) nd) w).
  destruct (kwargs_error kwargs); [done|].
  unfold modify_node. erewrite with_node_lookup by done.
  fold (with_node self
          (set_attrs (dict_update (_attrs (set_childs (_childs nd ++ args) nd)) kwargs)
             (set_childs (_childs nd ++ args) nd))
          (with_node self (set_childs (_childs nd ++ args) nd) w)).
  by rewrite with_node_twice.
Qed.

Lemma kwargs_error_kind kwargs e :
  kwargs_error kwargs = Some e ->
  exists c, e = ValueError (AttributeValue c) \/ e = ValueError (AttributeName c).
Proof.
  induction kwargs as [|[key val] kwargs IH]; simpl; [done|].
  destruct (isinstance_str val); simpl.
  - destruct (isinstance_str key); simpl; [done|].
    intros [= <-]. eauto.
  - intros [= <-]. eauto.
Qed.

Lemma args_error_None args :
  args_error args = None <-> forallb isinstance_str_or_XMLNode args = true.
Proof.
  unfold args_error. induction args as [|a args IH]; simpl; [done|].
  destruct (isinstance_str_or_XMLNode a); simpl; [done|].
  split; discriminate.
Qed.

Lemma with_new_node_lookup nd w :
  nodes (with_new_node nd w) !! length (nodes w) = Some nd.
Proof. simpl. by apply list_lookup_middle. Qed.

Lemma with_new_node_lookup_old nd w a x :
  nodes w !! a = Some x -> nodes (with_new_node nd w) !! a = Some x.
Proof. simpl. apply lookup_app_l_Some. Qed.

Lemma with_node_new nd nd' w :
  with_node (length (nodes w)) nd' (with_new_node nd w) = with_new_node nd' w.
Proof.
  unfold with_node, with_new_node; simpl. f_equal.
  replace (length (nodes w)) with (length (nodes w) + 0) at 1 by lia.
  by rewrite insert_app_r.
Qed.

(** The constructor in one equation.  The object is created before its
    arguments are examined, so a failed construction leaves a node nobody
    holds a reference to. *)
Lemma init_spec doc tag args kwargs w :
  XMLNode__init__ doc tag args kwargs w =
  match args_error args with
  | Some e => (Raise e, with_new_node (mkXMLNode doc [] tag ∅) w)
  | None =>
      match kwargs_error kwargs with
      | Some e => (Raise e, with_new_node (mkXMLNode doc args tag ∅) w)
      | None =>
          (Ok (length (nodes w)),
           with_new_node (mkXMLNode doc args tag (dict_update ∅ kwargs)) w)
      end
  end.
Proof.
  unfold XMLNode__init__, bind, alloc_node.
  fold (with_new_node (mkXMLNode doc [] tag ∅) w).
  rewrite xml_update_spec.
  destruct (args_error args); [done|].
  replace (nodes (with_new_node (mkXMLNode doc [] tag ∅) w)) with
    (nodes w ++ [mkXMLNode doc [] tag ∅]) by done.
  rewrite list_lookup_middle by done. cbn zeta.
  destruct (kwargs_error kwargs); rewrite with_node_new; done.
Qed.

(** ** Failed mutations (C1, C8, C9) *)

(** A call whose positional arguments are rejected changes nothing. *)
Lemma xml_update_args_failure self args kwargs w e :
  args_error args = Some e ->
  XMLNode_xml_update self args kwargs w = (Raise e, w).
Proof. intros He. by rewrite xml_update_spec, He. Qed.

(** A call whose named arguments are rejected has already extended the
    children; the attributes are as before. *)
Lemma xml_update_kwargs_failure self nd args kwargs w e :
  nodes w !! self = Some nd ->
  args_error args = None -> kwargs_error kwargs = Some e ->
  XMLNode_xml_update self args kwargs w =
    (Raise e, with_node self (set_childs (_childs nd ++ args) nd) w).
Proof. intros Hnd Ha Hk. by rewrite xml_update_spec, Ha, Hnd, Hk. Qed.

(** Append and item assignment pass one argument of one kind, so a failure
    of theirs does leave the store as it was. *)
Lemma lshift_failure_unchanged self val w e w' :
  XMLNode__lshift__ self val w = (Raise e, w') -> w' = w.
Proof.
  unfold XMLNode__lshift__, bind. rewrite xml_update_spec.
  destruct (args_error [val]); [by intros [= _ <-]|].
  destruct (nodes w !! self); [done | by intros [= _ <-]].
Qed.

Lemma setitem_failure_unchanged self nd name val w e w' :
  nodes w !! self = Some nd ->
  XMLNode__setitem__ self name val w = (Raise e, w') -> w' = w.
Proof.
  intros Hnd. unfold XMLNode__setitem__, dict_display1, bind.
  destruct (hashable name); [|by intros [= _ <-]].
  unfold ret. rewrite xml_update_spec, Hnd. cbn [args_error List.find].
  rewrite app_nil_r, set_childs_same.
  destruct (kwargs_error [(name, val)]); [|done].
  intros [= _ <-]. by apply with_node_same.
Qed.

(** C1 (the code departs from it).  The claim: a mutation call whose
    arguments fail validation raises and leaves the children list and the
    attribute mapping as they were, also when valid positional children
    come with an invalid attribute value.  On the node [greeting] of
    [greeting_world], the call [greeting("text", lang=1)] raises the
    [ValueError] for attribute values, and the node's children, empty
    before the call, hold ["text"] after it: [_xml_update] extends the
    children before it examines the named arguments. *)
Theorem C1_children_extended_before_attribute_check :
  _childs <$> nodes greeting_world !! 1 = Some [] /\
  XMLNode__call__ 1 [PStr "text"] [(PStr "lang", PInt 1)] greeting_world =
    (Raise (ValueError (AttributeValue cls_int)),
     with_node 1 (mkXMLNode 0 [PStr "text"] "greeting" ∅) greeting_world) /\
  _childs <$> nodes (snd (XMLNode__call__ 1 [PStr "text"] [(PStr "lang", PInt 1)]
                            greeting_world)) !! 1 = Some [PStr "text"].
Proof. repeat split; vm_compute; reflexivity. Qed.

(** C8.  A positional argument that is neither a string nor a node makes
    [__call__] and the constructor raise the [ValueError] for non-named
    arguments, naming the class of the first such argument; the call leaves
    the whole store untouched and the constructor's new node has no
    children.  When every positional argument is a string or a node,
    neither raises that error. *)
Theorem C8_positional_argument_type w self doc tag args kwargs :
  if forallb isinstance_str_or_XMLNode args
  then forall c,
         fst (XMLNode__call__ self args kwargs w)
           <> Raise (ValueError (NonNamedArgument c)) /\
         fst (XMLNode__init__ doc tag args kwargs w)
           <> Raise (ValueError (NonNamedArgument c))
  else exists a,
         List.find (fun a => negb (isinstance_str_or_XMLNode a)) args = Some a /\
         XMLNode__call__ self args kwargs w =
           (Raise (ValueError (NonNamedArgument (class_of a))), w) /\
         XMLNode__init__ doc tag args kwargs w =
           (Raise (ValueError (NonNamedArgument (class_of a))),
            with_new_node (mkXMLNode doc [] tag ∅) w).
Proof.
  unfold XMLNode__call__, bind. rewrite xml_update_spec, init_spec.
  destruct (forallb isinstance_str_or_XMLNode args) eqn:Hall.
  - apply args_error_None in Hall. rewrite Hall. intros c.
    destruct (kwargs_error kwargs) as [e|] eqn:Hk.
    + destruct (kwargs_error_kind _ _ Hk) as [c' [-> | ->]];
        destruct (nodes w !! self); simpl; split; congruence.
    + destruct (nodes w !! self); simpl; split; congruence.
  - unfold args_error.
    destruct (List.find _ args) as [a|] eqn:Hfind.
    + exists a. done.
    + exfalso. assert (Hn : args_error args = None) by (unfold args_error; by rewrite Hfind).
      apply args_error_None in Hn. congruence.
Qed.

(** C8 at [greeting(5)] and at [XMLNode(doc, "n", "a", 5)]. *)
Example C8_integer_argument :
  XMLNode__call__ 1 [PInt 5] [] greeting_world =
    (Raise (ValueError (NonNamedArgument cls_int)), greeting_world) /\
  fst (XMLNode__init__ 0 "n" [PStr "a"; PInt 5] [] greeting_world) =
    Raise (ValueError (NonNamedArgument cls_int)).
Proof. split; vm_compute; reflexivity. Qed.

(** C9.  Item assignment [node[name] = val] with a [name] that is not a
    string always raises and leaves the store, hence the attribute mapping,
    as it was: a list as name fails while the dictionary [{name: val}] is
    built, and otherwise [_xml_update] rejects the value if that is not a
    string either, and else the name. *)
Theorem C9_setitem_rejects_non_string_name w self nd name val :
  nodes w !! self = Some nd ->
  isinstance_str name = false ->
  XMLNode__setitem__ self name val w =
    (Raise (if hashable name
            then if isinstance_str val
                 then ValueError (AttributeName (class_of name))
                 else ValueError (AttributeValue (class_of val))
            else TypeError (Unhashable (class_of name))),
     w).
Proof.
  intros Hnd Hname. unfold XMLNode__setitem__, dict_display1, bind.
  destruct (hashable name); [|done].
  unfold ret. rewrite xml_update_spec, Hnd. simpl.
  rewrite Hname, app_nil_r, set_childs_same.
  destruct (isinstance_str val); simpl; by rewrite with_node_same.
Qed.

(** C9 on [greeting[7] = "en"]. *)
Lemma C9_setitem_rejects_non_string_name_witness :
  (nodes greeting_world !! 1 = Some (mkXMLNode 0 [] "greeting" ∅) /\
   isinstance_str (PInt 7) = false) /\
  XMLNode__setitem__ 1 (PInt 7) (PStr "en") greeting_world =
    (Raise (ValueError (AttributeName cls_int)), greeting_world).
Proof.
  split; [split; reflexivity|].
  exact (C9_setitem_rejects_non_string_name greeting_world 1
           (mkXMLNode 0 [] "greeting" ∅) (PInt 7) (PStr "en")
           eq_refl eq_refl).
Defined.

(** ** The scope stack (C2, C6) *)

Lemma with_stack_same d st w :
  builders w !! d = Some (mkXMLBuilder st) -> with_stack d st w = w.
Proof.
  intros Hd. unfold with_stack. rewrite list_insert_id by done. apply world_eta.
Qed.

Lemma with_stack_twice d st st' w :
  with_stack d st' (with_stack d st w) = with_stack d st' w.
Proof. unfold with_stack; simpl. by rewrite list_insert_insert_eq. Qed.

Lemma with_stack_lookup d st st0 w :
  builders w !! d = Some st0 ->
  builders (with_stack d st w) !! d = Some (mkXMLBuilder st).
Proof.
  intros Hd. simpl. apply list_lookup_insert_eq. by eapply lookup_lt_Some.
Qed.

(** [doc(None)] in one equation. *)
Lemma call_None_spec d st w :
  builders w !! d = Some (mkXMLBuilder st) ->
  XMLBuilder__call__ d None w =
  match last st with
  | None => (Raise IndexError, w)
  | Some _ => (Ok d, with_stack d (removelast st) w)
  end.
Proof.
  intros Hd. unfold XMLBuilder__call__, stack_pop, bind, get_stack.
  rewrite Hd. simpl. destruct (last st); [|done].
  unfold set_stack, ret. by rewrite Hd.
Qed.

(** [doc(node)] in one equation. *)
Lemma call_Some_spec d st o w :
  builders w !! d = Some (mkXMLBuilder st) ->
  XMLBuilder__call__ d (Some o) w = (Ok d, with_stack d (st ++ [o]) w).
Proof.
  intros Hd. unfold XMLBuilder__call__, stack_append, bind, get_stack, set_stack, ret.
  by rewrite Hd; simpl; rewrite Hd.
Qed.

(** C2, as stated, fails on [doc = XMLBuilder('root'); doc(None)]: the
    stack holds only the root, the call returns the builder instead of
    raising, and the stack is empty afterwards. *)
Lemma C2_pop_of_root_does_not_raise :
  let w := snd (XMLBuilder__init__ "root" [] [] empty_world) in
  _stack <$> builders w !! 0 = Some [0] /\
  fst (XMLBuilder__call__ 0 None w) = Ok 0 /\
  _stack <$> builders (snd (XMLBuilder__call__ 0 None w)) !! 0 = Some [] /\
  ~ (exists e w', XMLBuilder__call__ 0 None w = (Raise e, w') /\
                  _stack <$> builders w' !! 0 <> Some []).
Proof.
  repeat split; try reflexivity.
  intros (e & w' & Hcall & _). vm_compute in Hcall. discriminate Hcall.
Qed.

(** C2 (amended).  [doc(None)] on a stack that holds only the root pops
    the root: the call returns the builder and the stack is empty
    afterwards.  There is no underflow check in [__call__]. *)
Theorem C2_pop_of_root_empties_stack w d root :
  builders w !! d = Some (mkXMLBuilder [root]) ->
  XMLBuilder__call__ d None w = (Ok d, with_stack d [] w) /\
  _stack <$> builders (snd (XMLBuilder__call__ d None w)) !! d = Some [].
Proof.
  intros Hd. rewrite (call_None_spec d [root]) by done. simpl.
  split; [done|]. erewrite list_lookup_insert_eq; [done|].
  by eapply lookup_lt_Some.
Qed.

(** C2 (amended) on [doc = XMLBuilder('root'); doc(None)]. *)
Lemma C2_pop_of_root_empties_stack_witness :
  let w := snd (XMLBuilder__init__ "root" [] [] empty_world) in
  builders w !! 0 = Some (mkXMLBuilder [0]) /\
  XMLBuilder__call__ 0 None w = (Ok 0, with_stack 0 [] w) /\
  _stack <$> builders (snd (XMLBuilder__call__ 0 None w)) !! 0 = Some [].
Proof.
  split; [reflexivity|].
  exact (C2_pop_of_root_empties_stack
           (snd (XMLBuilder__init__ "root" [] [] empty_world)) 0 0 eq_refl).
Defined.

(** Only on a stack that is already empty does the pop raise. *)
Lemma pop_of_empty_stack_raises w d :
  builders w !! d = Some (mkXMLBuilder []) ->
  XMLBuilder__call__ d None w = (Raise IndexError, w).
Proof. intros Hd. by rewrite (call_None_spec d []). Qed.


Lemma enter_spec a nd st w :
  nodes w !! a = Some nd ->
  builders w !! _document nd = Some (mkXMLBuilder st) ->
  XMLNode__enter__ a w = (Ok (_document nd), with_stack (_document nd) (st ++ [a]) w).
Proof.
  intros Hnd Hd. unfold XMLNode__enter__, bind, get_node, deref_call.
  rewrite Hnd, Hd. by apply call_Some_spec.
Qed.

Lemma exit_spec a nd st top w :
  nodes w !! a = Some nd ->
  builders w !! _document nd = Some (mkXMLBuilder (st ++ [top])) ->
  XMLNode__exit__ a w = (Ok tt, with_stack (_document nd) st w).
Proof.
  intros Hnd Hd. unfold XMLNode__exit__, bind, get_node, deref_call.
  rewrite Hnd, Hd. rewrite (call_None_spec _ (st ++ [top])) by done.
  by rewrite last_snoc, removelast_last.
Qed.



(** ** Dynamic attribute access (C3) *)

Lemma with_node_length a nd w :
  length (nodes (with_node a nd w)) = length (nodes w).
Proof. simpl. apply length_insert. Qed.

Lemma with_new_node_length nd w :
  length (nodes (with_new_node nd w)) = S (length (nodes w)).
Proof. simpl. rewrite length_app; simpl; lia. Qed.

(** [node.name] in one equation, for a name that is not an IPython probe. *)
Lemma getattr_spec self nd name w :
  nodes w !! self = Some nd ->
  String.prefix "_ipython_" name = false ->
  XMLNode__getattr__ self name w =
    (Ok (length (nodes w)),
     with_node self (set_childs (_childs nd ++ [PNode (length (nodes w))]) nd)
       (with_new_node (mkXMLNode (_document nd) [] name ∅) w)).
Proof.
  intros Hnd Hname. unfold XMLNode__getattr__. rewrite Hname.
  unfold bind, get_node. rewrite Hnd, init_spec. simpl.
  unfold modify_node, ret.
  by erewrite with_new_node_lookup_old by done.
Qed.

Lemma getattr_reserved self name w :
  String.prefix "_ipython_" name = true ->
  XMLNode__getattr__ self name w = (Raise (AttributeError name), w).
Proof. intros Hname. unfold XMLNode__getattr__. by rewrite Hname. Qed.

Example getattr_ipython_probe :
  XMLNode__getattr__ 0 "_ipython_display_" greeting_world =
    (Raise (AttributeError "_ipython_display_"), greeting_world) /\
  fst (XMLNode__getattr__ 0 "_ipy" greeting_world) = Ok 2.
Proof. split; reflexivity. Qed.

(** [_xml_update] on one node leaves every other node alone. *)
Lemma xml_update_frame self other args kwargs w :
  self <> other ->
  nodes (snd (XMLNode_xml_update self args kwargs w)) !! other = nodes w !! other.
Proof.
  intros Hne. rewrite xml_update_spec.
  destruct (args_error args); [done|].
  destruct (nodes w !! self); [|done].
  destruct (kwargs_error kwargs); simpl; by rewrite list_lookup_insert_ne.
Qed.

Lemma call_frame self other args kwargs w :
  self <> other ->
  nodes (snd (XMLNode__call__ self args kwargs w)) !! other = nodes w !! other.
Proof.
  intros Hne. rewrite <- (xml_update_frame self other args kwargs w Hne).
  unfold XMLNode__call__, bind.
  by destruct (XMLNode_xml_update self args kwargs w) as [[[]|e] w'].
Qed.

(** [node << "text"] on a node that exists. *)
Lemma lshift_text_spec self nd s w :
  nodes w !! self = Some nd ->
  XMLNode__lshift__ self (PStr s) w =
    (Ok self, with_node self (set_childs (_childs nd ++ [PStr s]) nd) w).
Proof.
  intros Hnd. unfold XMLNode__lshift__, bind. rewrite xml_update_spec, Hnd. simpl.
  unfold ret. f_equal.
Qed.

(** C3.  On a node [self] and a name that is not an IPython probe, each
    attribute access allocates a node with that tag, no children and no
    attributes, appends it to the children of [self] and returns it.  Two
    accesses with the same name return two different addresses, both new
    to the store and listed one after the other among the children; the
    rest of the store is as before.  The two nodes do not share state:
    whatever is called on one leaves the other as it is, and appending a
    text to one shows on that one only. *)
Theorem C3_getattr_creates_new_sibling w self nd name :
  nodes w !! self = Some nd ->
  String.prefix "_ipython_" name = false ->
  let a1 := length (nodes w) in
  let a2 := S (length (nodes w)) in
  let child := mkXMLNode (_document nd) [] name ∅ in
  exists w1 w2,
    XMLNode__getattr__ self name w = (Ok a1, w1) /\
    XMLNode__getattr__ self name w1 = (Ok a2, w2) /\
    (* the first access *)
    nodes w !! a1 = None /\
    nodes w1 !! a1 = Some child /\
    nodes w1 !! self = Some (set_childs (_childs nd ++ [PNode a1]) nd) /\
    (* the second access *)
    nodes w1 !! a2 = None /\
    a1 <> a2 /\
    nodes w2 !! a1 = Some child /\
    nodes w2 !! a2 = Some child /\
    nodes w2 !! self = Some (set_childs (_childs nd ++ [PNode a1; PNode a2]) nd) /\
    (* nothing else changes *)
    length (nodes w2) = S (S (length (nodes w))) /\
    (forall other, other <> self -> other < length (nodes w) ->
                   nodes w2 !! other = nodes w !! other) /\
    builders w2 = builders w /\
    (* the two children are mutated independently *)
    (forall args kwargs,
       nodes (snd (XMLNode__call__ a1 args kwargs w2)) !! a2 = Some child /\
       nodes (snd (XMLNode__call__ a2 args kwargs w2)) !! a1 = Some child) /\
    (forall s,
       nodes (snd (XMLNode__lshift__ a1 (PStr s) w2)) !! a1
         = Some (set_childs [PStr s] child) /\
       nodes (snd (XMLNode__lshift__ a1 (PStr s) w2)) !! a2 = Some child /\
       nodes (snd (XMLNode__lshift__ a2 (PStr s) w2)) !! a2
         = Some (set_childs [PStr s] child) /\
       nodes (snd (XMLNode__lshift__ a2 (PStr s) w2)) !! a1 = Some child).
Proof.
  intros Hnd Hname a1 a2 child.
  pose proof (lookup_lt_Some _ _ _ Hnd) as Hlt.
  set (nd1 := set_childs (_childs nd ++ [PNode a1]) nd).
  set (w1 := with_node self nd1 (with_new_node child w)).
  assert (Hself1 : nodes w1 !! self = Some nd1).
  { eapply with_node_lookup, with_new_node_lookup_old, Hnd. }
  assert (Hlen1 : length (nodes w1) = a2).
  { unfold w1. by rewrite with_node_length, with_new_node_length. }
  set (w2 := with_node self (set_childs (_childs nd1 ++ [PNode a2]) nd1)
               (with_new_node child w1)).
  assert (Ha1_1 : nodes w1 !! a1 = Some child).
  { subst w1. rewrite with_node_lookup_ne by lia. apply with_new_node_lookup. }
  assert (Ha1 : nodes w2 !! a1 = Some child).
  { subst w2. rewrite with_node_lookup_ne by lia.
    by apply with_new_node_lookup_old. }
  assert (Ha2 : nodes w2 !! a2 = Some child).
  { subst w2. rewrite with_node_lookup_ne by lia.
    rewrite <- Hlen1. apply with_new_node_lookup. }
  exists w1, w2. repeat split.
  - by apply getattr_spec.
  - rewrite (getattr_spec self nd1 name w1 Hself1 Hname). by rewrite Hlen1.
  - apply lookup_ge_None. subst a1; lia.
  - done.
  - done.
  - apply lookup_ge_None. lia.
  - subst a1 a2; lia.
  - done.
  - done.
  - subst w2. erewrite with_node_lookup by (by eapply with_new_node_lookup_old).
    subst nd1; simpl. unfold set_childs; simpl. by rewrite <- app_assoc.
  - unfold w2. by rewrite with_node_length, with_new_node_length, Hlen1.
  - intros other Hne Hother. subst w2 w1; simpl.
    rewrite list_lookup_insert_ne by done.
    rewrite lookup_app_l by (rewrite length_insert, length_app; simpl; lia).
    rewrite list_lookup_insert_ne by done.
    by rewrite lookup_app_l by lia.
  - rewrite call_frame by (subst a1 a2; lia). done.
  - rewrite call_frame by (subst a1 a2; lia). done.
  - rewrite (lshift_text_spec a1 child s w2 Ha1).
    by eapply with_node_lookup.
  - rewrite (lshift_text_spec a1 child s w2 Ha1). cbn [snd].
    rewrite with_node_lookup_ne by (subst a1 a2; lia). done.
  - rewrite (lshift_text_spec a2 child s w2 Ha2).
    by eapply with_node_lookup.
  - rewrite (lshift_text_spec a2 child s w2 Ha2). cbn [snd].
    rewrite with_node_lookup_ne by (subst a1 a2; lia). done.
Qed.

(** C3 on the root of [greeting_world]: [root.item; root.item]. *)
Lemma C3_getattr_creates_new_sibling_witness :
  (nodes greeting_world !! 0 = Some (mkXMLNode 0 [PNode 1] "root" ∅) /\
   String.prefix "_ipython_" "item" = false) /\
  exists w1 w2,
    XMLNode__getattr__ 0 "item" greeting_world = (Ok 2, w1) /\
    XMLNode__getattr__ 0 "item" w1 = (Ok 3, w2) /\
    nodes w2 !! 0 = Some (mkXMLNode 0 [PNode 1; PNode 2; PNode 3] "root" ∅) /\
    nodes w2 !! 2 = Some (mkXMLNode 0 [] "item" ∅) /\
    nodes w2 !! 3 = Some (mkXMLNode 0 [] "item" ∅) /\
    nodes (snd (XMLNode__lshift__ 2 (PStr "first") w2)) !! 2
      = Some (mkXMLNode 0 [PStr "first"] "item" ∅) /\
    nodes (snd (XMLNode__lshift__ 2 (PStr "first") w2)) !! 3
      = Some (mkXMLNode 0 [] "item" ∅).
Proof.
  split; [split; reflexivity|].
  destruct (C3_getattr_creates_new_sibling greeting_world 0
              (mkXMLNode 0 [PNode 1] "root" ∅) "item" eq_refl eq_refl)
    as (w1 & w2 & H1 & H2 & _ & _ & _ & _ & _ & Ha1 & Ha2 & Hself & _ & _ & _ & _ & Hshift).
  destruct (Hshift "first") as (Hs1 & Hs2 & _).
  exists w1, w2. repeat split; assumption.
Defined.

(** ** Serialisation reads the store and nothing else (C7) *)

Lemma for_fold_pure {A B} (l : list A) (body : B -> A -> M B)
    (pure : B -> A -> outcome B) (b : B) (w : world) :
  (forall b x, body b x w = (pure b x, w)) ->
  for_fold l body b w = (fold_outcome l pure b, w).
Proof.
  intros Hbody. revert b. induction l as [|x l IH]; intros b; simpl; [done|].
  unfold bind. rewrite Hbody. destruct (pure b x); [apply IH | done].
Qed.

(** [_toxml] returns the store it was given, whether it raises or not. *)
Lemma stack_top_reads d w : stack_top d w = (top_of (builders w) d, w).
Proof.
  unfold stack_top, top_of, bind, get_stack.
  destruct (builders w !! d) as [b|]; [|done].
  by destruct (last (_stack b)).
Qed.

Lemma toxml_rendered {B} `{TreeBuilderLike B} depth self (builder : B) w :
  XMLNode_toxml depth self builder w = (rendered depth w self builder, w).
Proof.
  revert self builder. induction depth as [|depth IH]; intros self builder; simpl; [done|].
  unfold bind at 1. unfold get_node.
  destruct (nodes w !! self) as [nd|]; [|done].
  unfold bind.
  rewrite (for_fold_pure _ _
             (fun b child =>
                match child with
                | PStr s => Ok (tb_data s b)
                | PNode c => rendered depth w c b
                | PBuilder d =>
                    match top_of (builders w) d with
                    | Ok top => rendered depth w top b
                    | Raise e => Raise e
                    end
                | _ => Raise (AttributeError "_toxml")
                end)).
  - by destruct (fold_outcome _ _ _).
  - intros b [| | |s| |c|d]; try reflexivity; [apply IH|].
    rewrite stack_top_reads. destruct (top_of (builders w) d); [apply IH | done].
Qed.

Lemma stack_root_reads doc w : snd (stack_root doc w) = w.
Proof.
  unfold stack_root, bind, get_stack.
  destruct (builders w !! doc) as [[[|root st]]|]; done.
Qed.

Lemma tobytes_reads h doc encoding builder_cls pretty w :
  snd (tobytes h doc encoding builder_cls pretty w) = w.
Proof.
  unfold tobytes, bind.
  pose proof (stack_root_reads doc w) as Hroot.
  destruct (stack_root doc w) as [[root|e] w0]; simpl in Hroot; subst w0; [|done].
  rewrite toxml_rendered.
  destruct (rendered _ _ _ _) as [b|e]; [|done].
  unfold lift, ret.
  destruct (close _ b) as [tree|e]; [|done].
  destruct (tostring h tree _) as [res|e]; [|done].
  destruct (default false pretty); [|done].
  destruct (decode h res _) as [text|e]; [|done].
  destruct (parse_toprettyxml h text) as [pretty_text|e]; [|done].
  done.
Qed.

(** C7.  [_toxml] hands back the store it was given, with every node's
    tag, children and attributes as they were, for every builder and
    whether or not it raises; so does [tobytes].  Serialising again, from
    the store the first serialisation left, gives the same result. *)
Theorem C7_serialisation_is_read_only :
  (forall (B : Type) (ops : TreeBuilderLike B) depth self (builder : B) w,
     snd (XMLNode_toxml depth self builder w) = w) /\
  (forall h doc encoding builder_cls pretty w,
     snd (tobytes h doc encoding builder_cls pretty w) = w /\
     tobytes h doc encoding builder_cls pretty
         (snd (tobytes h doc encoding builder_cls pretty w)) =
       tobytes h doc encoding builder_cls pretty w).
Proof.
  split.
  - intros B ops depth self builder w. by rewrite toxml_rendered.
  - intros h doc encoding builder_cls pretty w.
    by rewrite tobytes_reads.
Qed.

(** C10.  [tostr] is [tobytes] followed by [decode] with the same
    encoding, the default ["utf8"] of both included; an exception of
    [tobytes] passes through. *)
Theorem C10_tostr_is_decoded_tobytes h doc encoding builder_cls pretty w :
  tostr h doc encoding builder_cls pretty w =
  match tobytes h doc encoding builder_cls pretty w with
  | (Ok res, w') => (decode h res (default "utf8" encoding), w')
  | (Raise e, w') => (Raise e, w')
  end.
Proof.
  unfold tostr, bind, lift.
  replace (tobytes h doc (Some (default "utf8" encoding)) builder_cls pretty w)
    with (tobytes h doc encoding builder_cls pretty w) by (by destruct encoding).
  by destruct (tobytes h doc encoding builder_cls pretty w) as [[res|e] w'].
Qed.

(** C5 (the code departs from it).  The claim, like the module's own
    docstring, has the options read by [doc[name]] and changed by
    [doc[name] = value].  [XMLBuilder] binds neither [__getitem__] nor
    [__setitem__], so both fail with a [TypeError]; and the options that
    exist at all are the keyword arguments of [tobytes], whose defaults
    are ["utf8"], [TreeBuilder] and no pretty-printing. *)
Theorem C5_builder_has_no_item_access h w doc :
  XMLBuilder_subscript w = (Raise (TypeError NotSubscriptable), w) /\
  XMLBuilder_item_assignment w = (Raise (TypeError NoItemAssignment), w) /\
  tobytes h doc None None None w =
    tobytes h doc (Some "utf8") (Some (TreeBuilder h)) (Some false) w.
Proof. repeat split. Qed.

(** [XMLNode], by contrast, binds [__setitem__] (for attributes), and no
    [__getitem__] either. *)
Example node_item_access w :
  special_method XMLNode_class "__setitem__" NoItemAssignment w = (Ok tt, w) /\
  special_method XMLNode_class "__getitem__" NotSubscriptable w =
    (Raise (TypeError NotSubscriptable), w).
Proof. split; reflexivity. Qed.

(** ** Construct, then render (C4) *)



Lemma fold_outcome_ext {A B} (l : list A) (body body' : B -> A -> outcome B) b r :
  (forall b x r, body b x = Ok r -> body' b x = Ok r) ->
  fold_outcome l body b = Ok r -> fold_outcome l body' b = Ok r.
Proof.
  intros Hbody. revert b. induction l as [|x l IH]; intros b; simpl; [done|].
  destruct (body b x) as [b'|e] eqn:Hx; [|done].
  rewrite (Hbody _ _ _ Hx). apply IH.
Qed.




(** After the checks every item is a pair of strings, so [dict_update]
    writes each of them. *)
Lemma dict_update_checked kwargs :
  kwargs_error kwargs = None ->
  Forall (fun item => exists k v, item = (PStr k, PStr v)) kwargs.
Proof.
  induction kwargs as [|[key val] kwargs IH]; simpl; [constructor|].
  destruct val; simpl; try done. destruct key; simpl; try done.
  intros Hrest. constructor; eauto.
Qed.




(** The scenario of the documentation: [doc = XMLBuilder('root')],
    [doc.greeting("text content", lang="en")], then the events the root
    sends to a builder. *)
Example greeting_scenario :
  fst ((g <- XMLNode__call__ 1 [PStr "text content"] [(PStr "lang", PStr "en")] ;;
        root <- stack_root 0 ;;
        XMLNode_toxml 2 root []) greeting_world)
  = Ok [Start "root" ∅; Start "greeting" {["lang" := "en"]};
        Data "text content"; End "greeting"; End "root"].
Proof. reflexivity. Qed.

(** A node appended to itself is accepted by the [isinstance] test; its
    rendering then runs out of frames at every depth tried. *)
Example self_child_exhausts_recursion :
  fst ((XMLNode__lshift__ 1 (PNode 1) ;; XMLNode_toxml 50 1 [])
         greeting_world)
  = Raise RecursionError.
Proof. vm_compute. reflexivity. Qed.

(** * Further properties of the two classes *)

(** ** Construction of a document *)

Lemma ret_bind_ignore {A} (m : M A) w :
  snd (ignore m w) = snd (m w).
Proof. unfold ignore, bind, ret. by destruct (m w) as [[a|e] w']. Qed.




(** ** Appending through the document *)

Lemma lshift_valid_spec self nd val w :
  nodes w !! self = Some nd ->
  isinstance_str_or_XMLNode val = true ->
  XMLNode__lshift__ self val w =
    (Ok self, with_node self (set_childs (_childs nd ++ [val]) nd) w).
Proof.
  intros Hnd Hval. unfold XMLNode__lshift__, bind.
  rewrite xml_update_spec, Hnd. unfold args_error. simpl. by rewrite Hval.
Qed.

(** X2.  [doc << v1 << v2]: the first [<<] is forwarded to the node on
    top of the stack and returns that node, not the builder, so the second
    [<<] applies to the node too; both values end up, in order, at the end
    of the children of the innermost open node, and the chain evaluates to
    that node. *)
Theorem builder_lshift_chain doc st top nd v1 v2 w :
  builders w !! doc = Some (mkXMLBuilder (st ++ [top])) ->
  nodes w !! top = Some nd ->
  isinstance_str_or_XMLNode v1 = true ->
  isinstance_str_or_XMLNode v2 = true ->
  (n <- XMLBuilder__lshift__ doc v1 ;; XMLNode__lshift__ n v2) w =
    (Ok top, with_node top (set_childs (_childs nd ++ [v1; v2]) nd) w).
Proof.
  intros Hdoc Hnd Hv1 Hv2.
  unfold bind at 1. unfold XMLBuilder__lshift__, bind at 1.
  unfold stack_top, bind at 1. unfold get_stack. rewrite Hdoc. cbn [_stack].
  rewrite last_snoc. unfold ret.
  rewrite (lshift_valid_spec top nd v1 w Hnd Hv1).
  erewrite lshift_valid_spec; [|by eapply with_node_lookup|done].
  rewrite with_node_twice. cbn [_childs set_childs].
  by rewrite <- app_assoc.
Qed.

Lemma builder_lshift_chain_witness :
  (builders two_children_world !! 0 = Some (mkXMLBuilder ([] ++ [0])) /\
   nodes two_children_world !! 0 = Some (mkXMLNode 0 [PNode 1; PNode 2] "root" ∅) /\
   isinstance_str_or_XMLNode (PStr "a") = true /\
   isinstance_str_or_XMLNode (PNode 2) = true) /\
  (n <- XMLBuilder__lshift__ 0 (PStr "a") ;; XMLNode__lshift__ n (PNode 2))
    two_children_world =
    (Ok 0,
     with_node 0 (mkXMLNode 0 [PNode 1; PNode 2; PStr "a"; PNode 2] "root" ∅)
       two_children_world).
Proof.
  split; [repeat split; reflexivity|].
  exact (builder_lshift_chain 0 [] 0 (mkXMLNode 0 [PNode 1; PNode 2] "root" ∅)
           (PStr "a") (PNode 2) two_children_world
           eq_refl eq_refl eq_refl eq_refl).
Defined.

(** ** A builder whose stack is empty *)

(** X3.  Once the stack of a builder is empty (the root has been popped),
    attribute access, [<<], another pop and [tobytes] all raise
    [IndexError] and leave the store as it is; an IPython probe still gets
    its [AttributeError], the prefix being tested first.  Only a push
    brings the builder back into use. *)
Theorem empty_stack_raises_IndexError h doc w name val encoding builder_cls pretty a :
  builders w !! doc = Some (mkXMLBuilder []) ->
  XMLBuilder__getattr__ doc name w =
    (Raise (if String.prefix "_ipython_" name
            then AttributeError name else IndexError), w) /\
  XMLBuilder__lshift__ doc val w = (Raise IndexError, w) /\
  XMLBuilder__call__ doc None w = (Raise IndexError, w) /\
  tobytes h doc encoding builder_cls pretty w = (Raise IndexError, w) /\
  XMLBuilder__call__ doc (Some a) w = (Ok doc, with_stack doc [a] w).
Proof.
  intros Hdoc. repeat split.
  - unfold XMLBuilder__getattr__.
    destruct (String.prefix "_ipython_" name); [done|].
    unfold bind, stack_top, bind, get_stack. by rewrite Hdoc.
  - unfold XMLBuilder__lshift__, bind, stack_top, bind, get_stack. by rewrite Hdoc.
  - by rewrite (call_None_spec doc []).
  - unfold tobytes, bind, stack_root, bind, get_stack. by rewrite Hdoc.
  - by rewrite (call_Some_spec doc []).
Qed.

(** X3 on [doc = XMLBuilder('root'); doc(None)], the store in which the
    root has just been popped. *)
Lemma empty_stack_raises_IndexError_witness :
  let w := snd ((doc <- XMLBuilder__init__ "root" [] [] ;;
                 XMLBuilder__call__ doc None) empty_world) in
  builders w !! 0 = Some (mkXMLBuilder []) /\
  XMLBuilder__getattr__ 0 "item" w = (Raise IndexError, w) /\
  XMLBuilder__lshift__ 0 (PStr "text") w = (Raise IndexError, w) /\
  XMLBuilder__call__ 0 None w = (Raise IndexError, w) /\
  tobytes example_host 0 None None None w = (Raise IndexError, w) /\
  XMLBuilder__call__ 0 (Some 0) w = (Ok 0, with_stack 0 [0] w).
Proof.
  split; [reflexivity|].
  exact (empty_stack_raises_IndexError example_host 0
           (snd ((doc <- XMLBuilder__init__ "root" [] [] ;;
                  XMLBuilder__call__ doc None) empty_world))
           "item" (PStr "text") None None None 0 eq_refl).
Defined.

(** ** Calls compose *)




(** ** Attributes *)

Lemma setitem_str_spec self nd k v w :
  nodes w !! self = Some nd ->
  XMLNode__setitem__ self (PStr k) (PStr v) w =
    (Ok tt, with_node self (set_attrs (<[k := v]> (_attrs nd)) nd) w).
Proof.
  intros Hnd. unfold XMLNode__setitem__, dict_display1, bind. simpl.
  unfold ret. rewrite xml_update_spec, Hnd. simpl.
  by rewrite app_nil_r, set_childs_same.
Qed.

(** X5.  [node[k] = v] with strings: afterwards the attribute [k] of the
    node is [v], its other attributes, its children and its tag are as
    before, and so is every other node.  Assigning twice to the same name
    is the same as the second assignment alone. *)
Theorem setitem_then_lookup self nd k v v0 w :
  nodes w !! self = Some nd ->
  exists nd',
    nodes (snd (XMLNode__setitem__ self (PStr k) (PStr v) w)) !! self = Some nd' /\
    fst (XMLNode__setitem__ self (PStr k) (PStr v) w) = Ok tt /\
    _attrs nd' !! k = Some v /\
    (forall k', k' <> k -> _attrs nd' !! k' = _attrs nd !! k') /\
    _childs nd' = _childs nd /\ _tag nd' = _tag nd /\
    _document nd' = _document nd /\
    (forall other, other <> self ->
       nodes (snd (XMLNode__setitem__ self (PStr k) (PStr v) w)) !! other
       = nodes w !! other) /\
    (XMLNode__setitem__ self (PStr k) (PStr v0) ;;
     XMLNode__setitem__ self (PStr k) (PStr v)) w
    = XMLNode__setitem__ self (PStr k) (PStr v) w.
Proof.
  intros Hnd. rewrite (setitem_str_spec self nd k v w Hnd).
  exists (set_attrs (<[k := v]> (_attrs nd)) nd). cbn [fst snd].
  repeat split.
  - by eapply with_node_lookup.
  - cbn. apply lookup_insert_eq.
  - intros k' Hk'. cbn. by apply lookup_insert_ne.
  - intros other Hother. by apply with_node_lookup_ne.
  - unfold bind. rewrite (setitem_str_spec self nd k v0 w Hnd).
    erewrite setitem_str_spec by (by eapply with_node_lookup).
    rewrite with_node_twice. cbn [set_attrs _attrs _childs _tag _document].
    by rewrite insert_insert_eq.
Qed.

(** X5 on [greeting["lang"] = "de"], after [greeting["lang"] = "en"]. *)
Lemma setitem_then_lookup_witness :
  nodes greeting_world !! 1 = Some (mkXMLNode 0 [] "greeting" ∅) /\
  (XMLNode__setitem__ 1 (PStr "lang") (PStr "en") ;;
   XMLNode__setitem__ 1 (PStr "lang") (PStr "de")) greeting_world
  = XMLNode__setitem__ 1 (PStr "lang") (PStr "de") greeting_world.
Proof.
  split; [reflexivity|].
  destruct (setitem_then_lookup 1 (mkXMLNode 0 [] "greeting" ∅)
              "lang" "de" "en" greeting_world eq_refl)
    as (nd' & _ & _ & _ & _ & _ & _ & _ & _ & Htwice).
  exact Htwice.
Defined.

(** ** Scopes do not look at which node is on the stack *)

(** X6.  [__exit__] pops whatever is on top of the stack of the node's
    document, not the node itself: after [a.__enter__()], the call
    [b.__exit__()] on any node [b] of the same document gives back the
    store of before the entry.  And [__enter__] does not look for the node
    on the stack: entering [a] twice pushes it twice. *)
Theorem exit_pops_the_top_whichever a b nda ndb st w :
  nodes w !! a = Some nda ->
  nodes w !! b = Some ndb ->
  _document ndb = _document nda ->
  builders w !! _document nda = Some (mkXMLBuilder st) ->
  (XMLNode__enter__ a ;; XMLNode__exit__ b) w = (Ok tt, w) /\
  (XMLNode__enter__ a ;; XMLNode__enter__ a) w =
    (Ok (_document nda), with_stack (_document nda) (st ++ [a; a]) w).
Proof.
  intros Ha Hb Hdoc Hst. split.
  - unfold bind. rewrite (enter_spec a nda st w Ha Hst).
    rewrite (exit_spec b ndb st a).
    + rewrite Hdoc, with_stack_twice. by rewrite with_stack_same.
    + done.
    + rewrite Hdoc. by eapply with_stack_lookup.
  - unfold bind. rewrite (enter_spec a nda st w Ha Hst).
    rewrite (enter_spec a nda (st ++ [a])).
    + by rewrite with_stack_twice, <- app_assoc.
    + done.
    + by eapply with_stack_lookup.
Qed.

(** X6 on [greeting.__enter__(); name.__exit__()]. *)
Lemma exit_pops_the_top_whichever_witness :
  (nodes two_children_world !! 1 = Some (mkXMLNode 0 [] "greeting" ∅) /\
   nodes two_children_world !! 2 = Some (mkXMLNode 0 [] "name" ∅) /\
   builders two_children_world !! 0 = Some (mkXMLBuilder [0])) /\
  (XMLNode__enter__ 1 ;; XMLNode__exit__ 2) two_children_world =
    (Ok tt, two_children_world) /\
  (XMLNode__enter__ 1 ;; XMLNode__enter__ 1) two_children_world =
    (Ok 0, with_stack 0 [0; 1; 1] two_children_world).
Proof.
  split; [repeat split; reflexivity|].
  exact (exit_pops_the_top_whichever 1 2 (mkXMLNode 0 [] "greeting" ∅)
           (mkXMLNode 0 [] "name" ∅) [0] two_children_world
           eq_refl eq_refl eq_refl eq_refl).
Defined.



(** X8.  A node whose document is gone (the weak reference is dead)
    cannot be used as a scope: [__enter__] and [__exit__] raise the
    [TypeError] of calling [None], and the store is untouched.  Its other
    operations do not need the document: attribute access still creates a
    child, which inherits the dead reference. *)
Theorem scope_of_dead_document a nd name w :
  nodes w !! a = Some nd ->
  builders w !! _document nd = None ->
  String.prefix "_ipython_" name = false ->
  XMLNode__enter__ a w = (Raise (TypeError NoneNotCallable), w) /\
  XMLNode__exit__ a w = (Raise (TypeError NoneNotCallable), w) /\
  fst (XMLNode__getattr__ a name w) = Ok (length (nodes w)) /\
  nodes (snd (XMLNode__getattr__ a name w)) !! length (nodes w)
    = Some (mkXMLNode (_document nd) [] name ∅).
Proof.
  intros Ha Hdead Hname. repeat split.
  - unfold XMLNode__enter__, bind, get_node, deref_call. by rewrite Ha, Hdead.
  - unfold XMLNode__exit__, bind, get_node, deref_call. by rewrite Ha, Hdead.
  - by rewrite (getattr_spec a nd name w Ha Hname).
  - rewrite (getattr_spec a nd name w Ha Hname). cbn [snd].
    rewrite with_node_lookup_ne.
    + apply with_new_node_lookup.
    + apply lookup_lt_Some in Ha. lia.
Qed.

(** X8 on a lone node whose builder is not in the store. *)
Lemma scope_of_dead_document_witness :
  let w := mkWorld [mkXMLNode 0 [] "orphan" ∅] [] in
  (nodes w !! 0 = Some (mkXMLNode 0 [] "orphan" ∅) /\
   builders w !! 0 = None /\
   String.prefix "_ipython_" "item" = false) /\
  XMLNode__enter__ 0 w = (Raise (TypeError NoneNotCallable), w) /\
  XMLNode__exit__ 0 w = (Raise (TypeError NoneNotCallable), w) /\
  fst (XMLNode__getattr__ 0 "item" w) = Ok 1 /\
  nodes (snd (XMLNode__getattr__ 0 "item" w)) !! 1
    = Some (mkXMLNode 0 [] "item" ∅).
Proof.
  split; [repeat split; reflexivity|].
  exact (scope_of_dead_document 0 (mkXMLNode 0 [] "orphan" ∅) "item"
           (mkWorld [mkXMLNode 0 [] "orphan" ∅] []) eq_refl eq_refl eq_refl).
Defined.

(** * Further properties of serialisation *)

(** ** Every builder sees the same events *)

Lemma replay_snoc {B} `{TreeBuilderLike B} evs ev (b0 : B) :
  replay (evs ++ [ev]) b0 = apply_event (replay evs b0) ev.
Proof. unfold replay. by rewrite foldl_snoc. Qed.

Lemma fold_outcome_replay {A B} `{TreeBuilderLike B} (l : list A)
    (body : B -> A -> outcome B)
    (rec_body : list event -> A -> outcome (list event)) (b0 : B) c :
  (forall c x, body (replay c b0) x = replayed b0 (rec_body c x)) ->
  fold_outcome l body (replay c b0) = replayed b0 (fold_outcome l rec_body c).
Proof.
  intros Hbody. revert c. induction l as [|x l IH]; intros c; simpl; [done|].
  rewrite Hbody. destruct (rec_body c x) as [c'|e]; simpl; [apply IH | done].
Qed.

Lemma rendered_replay {B} `{TreeBuilderLike B} depth w self (b0 : B) c :
  rendered depth w self (replay c b0) = replayed b0 (rendered depth w self c).
Proof.
  revert self c. induction depth as [|depth IH]; intros self c; simpl; [done|].
  destruct (nodes w !! self) as [nd|]; [|done].
  change (tb_start (_tag nd) (_attrs nd) (replay c b0))
    with (apply_event (replay c b0) (Start (_tag nd) (_attrs nd))).
  rewrite <- replay_snoc.
  rewrite (fold_outcome_replay _ _
             (fun b child =>
                match child with
                | PStr s => Ok (tb_data s b)
                | PNode c => rendered depth w c b
                | PBuilder d =>
                    match top_of (builders w) d with
                    | Ok top => rendered depth w top b
                    | Raise e => Raise e
                    end
                | _ => Raise (AttributeError "_toxml")
                end)).
  - simpl. destruct (fold_outcome _ _ _) as [r|e]; simpl; [|done].
    f_equal. symmetry. apply (replay_snoc r (End (_tag nd)) b0).
  - intros c' [| | |s| |a|d]; simpl; try done.
    + f_equal. symmetry. apply (replay_snoc c' (Data s) b0).
    + destruct (top_of (builders w) d); [apply IH | done].
Qed.

(** X9.  Rendering into any builder, from any state of it, is rendering
    into the recorder and then sending the recorded events to that builder
    in order; when the recorder run raises, so does the other, with the
    same exception.  What [_toxml] does with a builder is therefore fixed
    by the event list alone. *)
Theorem toxml_is_replay_of_events (B : Type) (ops : TreeBuilderLike B)
    depth self (builder : B) w :
  XMLNode_toxml depth self builder w =
  match XMLNode_toxml depth self ([] : list event) w with
  | (Ok evs, w') => (Ok (replay evs builder), w')
  | (Raise e, w') => (Raise e, w')
  end.
Proof.
  rewrite !toxml_rendered.
  change builder with (replay [] builder) at 1.
  rewrite rendered_replay. by destruct (rendered depth w self []).
Qed.

(** ** More frames never hurt *)

Lemma rendered_deeper {B} `{TreeBuilderLike B} depth depth' w self (b r : B) :
  rendered depth w self b = Ok r ->
  depth <= depth' ->
  rendered depth' w self b = Ok r.
Proof.
  revert depth' self b r.
  induction depth as [|depth IH]; intros depth' self b r; [done|].
  intros Hr Hle. destruct depth' as [|depth']; [lia|].
  cbn [rendered] in *.
  destruct (nodes w !! self) as [nd|]; [|done].
  destruct (fold_outcome (_childs nd) _ _) as [b'|e] eqn:Hfold; [|done].
  erewrite fold_outcome_ext; [exact Hr| |exact Hfold].
  intros b0 [| | |s| |a|d] r0; try done.
  - intros Ha. apply IH; [done | lia].
  - destruct (top_of (builders w) d); [|done].
    intros Ha. apply IH; [done | lia].
Qed.

(** X10.  If [_toxml] returns with [depth] frames available, it returns
    the same builder state with any larger number of frames: the depth
    matters only through [RecursionError]. *)
Theorem toxml_deeper (B : Type) (ops : TreeBuilderLike B)
    depth depth' self (builder r : B) w w' :
  XMLNode_toxml depth self builder w = (Ok r, w') ->
  depth <= depth' ->
  XMLNode_toxml depth' self builder w = (Ok r, w').
Proof.
  rewrite !toxml_rendered. intros [= Hr <-] Hle.
  by rewrite (rendered_deeper depth depth' w self builder r Hr Hle).
Qed.

(** X10 on the root of [greeting_world], which needs two frames. *)
Lemma toxml_deeper_witness :
  (XMLNode_toxml 2 0 [] greeting_world =
     (Ok [Start "root" ∅; Start "greeting" ∅; End "greeting"; End "root"],
      greeting_world) /\
   2 <= 40) /\
  XMLNode_toxml 40 0 [] greeting_world =
    (Ok [Start "root" ∅; Start "greeting" ∅; End "greeting"; End "root"],
     greeting_world).
Proof.
  split; [split; [reflexivity | lia]|].
  apply (toxml_deeper (list event) recorder 2 40 0 [] _ greeting_world
           greeting_world eq_refl).
  lia.
Defined.

(** ** The events of a node are well nested *)





(** ** [tobytes] sees a document through its events only *)



(** * Invariants of the store *)

(** ** Every call keeps the store well formed *)

Lemma forallb_Forall {A} (f : A -> bool) (l : list A) :
  forallb f l = true <-> Forall (fun x => f x = true) l.
Proof.
  induction l as [|x l IH]; simpl.
  - split; [constructor | done].
  - rewrite andb_true_iff, IH. split.
    + intros [Hx Hl]. by constructor.
    + intros H. by inversion H.
Qed.

Lemma wf_iff w :
  wf w = true <->
  Forall (fun nd => node_ok (length (nodes w)) (length (builders w)) nd = true)
    (nodes w) /\
  Forall (fun b => builder_ok (length (nodes w)) b = true) (builders w).
Proof. unfold wf. by rewrite andb_true_iff, !forallb_Forall. Qed.








Lemma wf_node_lookup w a nd :
  wf w = true -> nodes w !! a = Some nd ->
  node_ok (length (nodes w)) (length (builders w)) nd = true.
Proof.
  rewrite wf_iff. intros [Hn _] Ha.
  by apply (Forall_lookup_1 _ _ _ _ Hn Ha).
Qed.











Lemma call_snd self args kwargs w :
  snd (XMLNode__call__ self args kwargs w) =
  snd (XMLNode_xml_update self args kwargs w).
Proof.
  unfold XMLNode__call__, bind, ret.
  by destruct (XMLNode_xml_update self args kwargs w) as [[[]|e] w'].
Qed.

Lemma lshift_snd self val w :
  snd (XMLNode__lshift__ self val w) =
  snd (XMLNode_xml_update self [val] [] w).
Proof.
  unfold XMLNode__lshift__, bind, ret.
  by destruct (XMLNode_xml_update self [val] [] w) as [[[]|e] w'].
Qed.





(** ** In a well-formed store rendering can only run out of frames *)

Lemma fold_outcome_errors {A B} (Q : A -> Prop) (E : exn -> Prop) (l : list A)
    (body : B -> A -> outcome B) b e :
  Forall Q l ->
  (forall b x e, Q x -> body b x = Raise e -> E e) ->
  fold_outcome l body b = Raise e -> E e.
Proof.
  intros Hl Hbody. revert b. induction Hl as [|x l Hx Hl IH]; intros b; simpl; [done|].
  destruct (body b x) as [b'|e'] eqn:Hbx.
  - apply IH.
  - intros [= <-]. by eapply Hbody.
Qed.

Lemma rendered_wf_errors {B} `{TreeBuilderLike B} depth w (self : addr) (b : B) e :
  wf w = true ->
  self < length (nodes w) ->
  rendered depth w self b = Raise e -> e = RecursionError.
Proof.
  intros Hwf. revert self b e.
  induction depth as [|depth IH]; intros self b e Hself; cbn [rendered].
  { by intros [= <-]. }
  destruct (nodes w !! self) as [nd|] eqn:Hnd; last first.
  { apply lookup_ge_None in Hnd. lia. }
  pose proof (wf_node_lookup _ _ _ Hwf Hnd) as Hok.
  unfold node_ok in Hok. apply andb_true_iff in Hok as [Hchildren _].
  apply forallb_Forall in Hchildren.
  match goal with
  | |- context [fold_outcome ?l ?f ?x] =>
      destruct (fold_outcome l f x) as [b'|e'] eqn:Hfold
  end; [done|].
  intros [= <-].
  eapply (fold_outcome_errors _ (fun e => e = RecursionError)); [exact Hchildren| |exact Hfold].
  intros b0 [| | |s| |a|d] e0 Hc; try done.
  cbn [child_ok] in Hc. apply Nat.ltb_lt in Hc. by apply IH.
Qed.

(** X14.  In a well-formed store, [_toxml] on an existing node either
    returns or raises [RecursionError]: the lookups of [_toxml] on the
    children cannot fail, and the only way not to return is a tree deeper
    than the frames available, a node reachable from itself included. *)
Theorem toxml_fails_only_by_recursion (B : Type) (ops : TreeBuilderLike B)
    depth (self : addr) (builder : B) w :
  wf w = true ->
  self < length (nodes w) ->
  match fst (XMLNode_toxml depth self builder w) with
  | Ok _ => True
  | Raise e => e = RecursionError
  end.
Proof.
  intros Hwf Hself. rewrite toxml_rendered. cbn [fst].
  destruct (rendered depth w self builder) as [r|e] eqn:Hr; [done|].
  by eapply rendered_wf_errors.
Qed.

(** X14 on [greeting << greeting], a node that is its own child. *)
Lemma toxml_fails_only_by_recursion_witness :
  let w := snd (XMLNode__lshift__ 1 (PNode 1) greeting_world) in
  (wf w = true /\ 0 < length (nodes w)) /\
  match fst (XMLNode_toxml 30 0 ([] : list event) w) with
  | Ok _ => True
  | Raise e => e = RecursionError
  end.
Proof.
  split; [split; [reflexivity | cbn; lia]|].
  apply (toxml_fails_only_by_recursion (list event) recorder 30 0 []
           (snd (XMLNode__lshift__ 1 (PNode 1) greeting_world)) eq_refl).
  cbn; lia.
Defined.

(** ** Trees built by attribute access always render *)

Lemma forward_from_lookup i n l :
  forward_from i n l = true <->
  (forall k nd, l !! k = Some nd ->
                forallb (forward_child (i + k) n) (_childs nd) = true).
Proof.
  revert i. induction l as [|x l IH]; intros i; cbn [forward_from].
  - split; [intros _ k nd Hk; done | done].
  - rewrite andb_true_iff, IH. split.
    + intros [Hx Hl] [|k] nd Hk; cbn in Hk.
      * injection Hk as <-. by rewrite Nat.add_0_r.
      * replace (i + S k) with (S i + k) by lia. by apply Hl.
    + intros Hall. split.
      * rewrite <- (Nat.add_0_r i). by apply (Hall 0).
      * intros k nd Hk. replace (S i + k) with (i + S k) by lia.
        by apply (Hall (S k)).
Qed.

Lemma forward_iff w :
  forward w = true <->
  (forall (k : addr) nd, nodes w !! k = Some nd ->
     forallb (forward_child k (length (nodes w))) (_childs nd) = true).
Proof. unfold forward. by rewrite forward_from_lookup. Qed.

Lemma fold_outcome_returns {A B} (Q : A -> Prop) (l : list A)
    (body : B -> A -> outcome B) b :
  Forall Q l ->
  (forall b x, Q x -> exists r, body b x = Ok r) ->
  exists r, fold_outcome l body b = Ok r.
Proof.
  intros Hl Hbody. revert b. induction Hl as [|x l Hx Hl IH]; intros b; simpl.
  - by exists b.
  - destruct (Hbody b x Hx) as [b' ->]. apply IH.
Qed.

Lemma rendered_forward {B} `{TreeBuilderLike B} depth w (self : addr) (b : B) :
  forward w = true ->
  self < length (nodes w) ->
  length (nodes w) - self <= depth ->
  exists r, rendered depth w self b = Ok r.
Proof.
  intros Hfw. revert self b.
  induction depth as [|depth IH]; intros self b Hself Hdepth; [lia|].
  cbn [rendered].
  destruct (nodes w !! self) as [nd|] eqn:Hnd; last first.
  { apply lookup_ge_None in Hnd. lia. }
  pose proof (proj1 (forward_iff w) Hfw self nd Hnd) as Hchildren.
  apply forallb_Forall in Hchildren.
  match goal with
  | |- context [fold_outcome ?l ?f ?x] =>
      destruct (fold_outcome_returns _ l f x Hchildren) as [r ->]
  end.
  - intros b0 [| | |s| |a|d] Hc; try done.
    + by eexists.
    + cbn [forward_child] in Hc. apply andb_true_iff in Hc as [Hlo Hhi].
      apply Nat.ltb_lt in Hlo, Hhi. apply IH; lia.
  - by eexists.
Qed.

(** X15.  In a store whose children are all younger than their parents,
    [_toxml] on an existing node returns as soon as it has as many frames
    as there are nodes from this one to the youngest: such trees have no
    cycle, and no path in them is longer than that. *)
Theorem forward_store_renders (B : Type) (ops : TreeBuilderLike B)
    depth (self : addr) (builder : B) w :
  forward w = true ->
  self < length (nodes w) ->
  length (nodes w) - self <= depth ->
  exists r, XMLNode_toxml depth self builder w = (Ok r, w).
Proof.
  intros Hfw Hself Hdepth. rewrite toxml_rendered.
  destruct (rendered_forward depth w self builder Hfw Hself Hdepth) as [r ->].
  by exists r.
Qed.

(** X15 on the root of [two_children_world]: three nodes, three frames. *)
Lemma forward_store_renders_witness :
  (forward two_children_world = true /\
   0 < length (nodes two_children_world) /\
   length (nodes two_children_world) - 0 <= 3) /\
  exists r, XMLNode_toxml 3 0 ([] : list event) two_children_world
            = (Ok r, two_children_world).
Proof.
  split; [split; [reflexivity | cbn; lia]|].
  apply (forward_store_renders (list event) recorder 3 0 [] two_children_world
           eq_refl); cbn; lia.
Defined.

Lemma forward_child_mono i n n' c :
  n <= n' -> forward_child i n c = true -> forward_child i n' c = true.
Proof.
  intros Hle. destruct c; cbn [forward_child]; try done.
  rewrite !andb_true_iff. intros [Hlo Hhi]. split; [done|].
  apply Nat.ltb_lt. apply Nat.ltb_lt in Hhi. lia.
Qed.

Lemma forward_nodes_eq w w' : nodes w' = nodes w -> forward w' = forward w.
Proof. unfold forward. by intros ->. Qed.

Lemma forward_with_node (a : addr) nd w :
  forward w = true ->
  forallb (forward_child a (length (nodes w))) (_childs nd) = true ->
  forward (with_node a nd w) = true.
Proof.
  rewrite !forward_iff. intros Hfw Hnd k x.
  cbn [nodes with_node]. rewrite length_insert.
  intros [(-> & -> & _)|(_ & Hk)]%list_lookup_insert_Some; [done|].
  by apply Hfw.
Qed.

Lemma forward_with_new_node nd w :
  forward w = true ->
  forallb (forward_child (length (nodes w)) (S (length (nodes w)))) (_childs nd)
    = true ->
  forward (with_new_node nd w) = true.
Proof.
  rewrite !forward_iff. intros Hfw Hnd k x.
  cbn [nodes with_new_node]. rewrite length_app. cbn [length].
  replace (length (nodes w) + 1) with (S (length (nodes w))) by lia.
  intros [(Hlt & Hk)|(-> & ->)]%lookup_snoc_Some; [|done].
  apply forallb_Forall. specialize (Hfw k x Hk). apply forallb_Forall in Hfw.
  eapply Forall_impl; [exact Hfw|]. intros c. apply forward_child_mono. lia.
Qed.

Lemma checked_args_forward (self : addr) n args :
  args_error args = None ->
  forallb (later_ref self n) args = true ->
  forallb (forward_child self n) args = true.
Proof.
  rewrite args_error_None, !forallb_Forall.
  induction args as [|v args IH]; [done|].
  intros Hi Hr. inversion Hi; inversion Hr; subst.
  constructor; [|by apply IH].
  destruct v; done.
Qed.

Lemma forward_xml_update (self : addr) args kwargs w :
  forward w = true ->
  forallb (later_ref self (length (nodes w))) args = true ->
  forward (snd (XMLNode_xml_update self args kwargs w)) = true.
Proof.
  intros Hfw Hrefs. rewrite xml_update_spec.
  destruct (args_error args) eqn:Hargs; [done|].
  destruct (nodes w !! self) as [nd|] eqn:Hnd; [|done].
  pose proof (proj1 (forward_iff w) Hfw self nd Hnd) as Hold.
  pose proof (checked_args_forward _ _ _ Hargs Hrefs) as Hnew.
  destruct (kwargs_error kwargs); cbn [snd]; apply forward_with_node; try done;
    cbn [set_attrs set_childs _childs]; by rewrite forallb_app, Hold, Hnew.
Qed.

Lemma forward_node_init doc tag args kwargs w :
  forward w = true ->
  forallb (later_ref (length (nodes w)) (length (nodes w))) args = true ->
  forward (snd (XMLNode__init__ doc tag args kwargs w)) = true.
Proof.
  intros Hfw Hrefs. rewrite init_spec.
  destruct (args_error args) eqn:Hargs; cbn [snd].
  { by apply forward_with_new_node. }
  pose proof (checked_args_forward _ _ _ Hargs Hrefs) as Hnew.
  assert (Hnew' : forallb (forward_child (length (nodes w)) (S (length (nodes w))))
                    args = true).
  { apply forallb_Forall. apply forallb_Forall in Hnew.
    eapply Forall_impl; [exact Hnew|]. intros c. apply forward_child_mono. lia. }
  destruct (kwargs_error kwargs); cbn [snd]; by apply forward_with_new_node.
Qed.

Lemma forward_node_getattr self name w :
  forward w = true -> forward (snd (XMLNode__getattr__ self name w)) = true.
Proof.
  intros Hfw.
  destruct (String.prefix "_ipython_" name) eqn:Hname.
  { by rewrite getattr_reserved. }
  destruct (nodes w !! self) as [nd|] eqn:Hnd; last first.
  { unfold XMLNode__getattr__. rewrite Hname. unfold bind, get_node.
    by rewrite Hnd. }
  rewrite (getattr_spec self nd name w Hnd Hname). cbn [snd].
  pose proof (proj1 (forward_iff w) Hfw self nd Hnd) as Hold.
  apply forward_with_node.
  - by apply forward_with_new_node.
  - rewrite with_new_node_length. cbn [set_childs _childs].
    rewrite forallb_app. apply andb_true_iff. split.
    + apply forallb_Forall. apply forallb_Forall in Hold.
      eapply Forall_impl; [exact Hold|]. intros c. apply forward_child_mono. lia.
    + cbn [forallb forward_child]. rewrite andb_true_r.
      apply andb_true_iff. apply lookup_lt_Some in Hnd.
      split; apply Nat.ltb_lt; lia.
Qed.

Lemma builder_call_nodes (d : docref) (obj : option addr) w :
  nodes (snd (XMLBuilder__call__ d obj w)) = nodes w.
Proof.
  unfold XMLBuilder__call__.
  destruct obj; unfold bind, stack_append, stack_pop, bind, get_stack;
    destruct (builders w !! d) as [[st]|] eqn:Hd; try done; cbn [_stack].
  - unfold set_stack. by rewrite Hd.
  - destruct (last st); [|done]. unfold set_stack, bind, ret. by rewrite Hd.
Qed.

Lemma enter_nodes self w : nodes (snd (XMLNode__enter__ self w)) = nodes w.
Proof.
  unfold XMLNode__enter__, bind at 1. unfold get_node.
  destruct (nodes w !! self) as [nd|]; [|done].
  unfold bind, deref_call. destruct (builders w !! _document nd); [|done].
  apply builder_call_nodes.
Qed.

Lemma exit_nodes self w : nodes (snd (XMLNode__exit__ self w)) = nodes w.
Proof.
  unfold XMLNode__exit__, bind at 1. unfold get_node.
  destruct (nodes w !! self) as [nd|]; [|done].
  unfold bind at 1. unfold deref_call.
  destruct (builders w !! _document nd); [|done].
  pose proof (builder_call_nodes (_document nd) None w) as Hcall.
  unfold bind. by destruct (XMLBuilder__call__ (_document nd) None w) as [[d|e] w'].
Qed.

Lemma forward_builder_init root_name args kwargs w :
  forward w = true ->
  forallb (later_ref (length (nodes w)) (length (nodes w))) args = true ->
  forward (snd (XMLBuilder__init__ root_name args kwargs w)) = true.
Proof.
  intros Hfw Hrefs.
  pose proof (forward_node_init (length (builders w)) root_name args kwargs
                (with_new_builder (mkXMLBuilder []) w)) as Hinit.
  rewrite (forward_nodes_eq w (with_new_builder (mkXMLBuilder []) w)) in Hinit by done.
  specialize (Hinit Hfw Hrefs).
  unfold XMLBuilder__init__, bind, alloc_builder.
  fold (with_new_builder (mkXMLBuilder []) w).
  rewrite init_spec in *.
  destruct (args_error args); [done|].
  destruct (kwargs_error kwargs); [done|].
  cbn [snd] in Hinit. unfold set_stack, ret.
  cbn [builders nodes with_new_node with_new_builder].
  rewrite list_lookup_middle by done. cbn [snd].
  by rewrite <- Hinit.
Qed.

(** One call keeps the children younger than their parents. *)
Lemma run_op_forward o w :
  forward w = true ->
  op_refs_later w o = true ->
  forward (snd (run_op o w)) = true.
Proof.
  intros Hfw Hrefs.
  destruct o as [root_name args kwargs|self name|self args kwargs|self val
                 |self name val|self|self|doc name|doc val|doc obj];
    cbn [run_op op_refs_later] in *; rewrite ?ret_bind_ignore.
  - by apply forward_builder_init.
  - by apply forward_node_getattr.
  - rewrite call_snd. by apply forward_xml_update.
  - rewrite lshift_snd. apply forward_xml_update; [done|].
    cbn [forallb]. by rewrite Hrefs.
  - unfold XMLNode__setitem__, dict_display1, bind.
    destruct (hashable name); [|done]. unfold ret. by apply forward_xml_update.
  - by rewrite (forward_nodes_eq w _ (enter_nodes self w)).
  - by rewrite (forward_nodes_eq w _ (exit_nodes self w)).
  - unfold XMLBuilder__getattr__.
    destruct (String.prefix "_ipython_" name); [done|].
    unfold bind. rewrite stack_top_reads.
    destruct (top_of (builders w) doc); [by apply forward_node_getattr | done].
  - unfold XMLBuilder__lshift__, bind. rewrite stack_top_reads.
    destruct (top_of (builders w) doc); [|done].
    rewrite lshift_snd. apply forward_xml_update; [done|].
    cbn [forallb]. by rewrite Hrefs.
  - by rewrite (forward_nodes_eq w _ (builder_call_nodes doc obj w)).
Qed.

(** X16.  Every client program keeps the children younger than their
    parents, provided a node handed over as an argument is younger than
    the node it is appended to.  Attribute access, text, attributes and
    scopes meet the proviso for free, so a document built with them alone
    stays in the shape in which [_toxml] is sure to return. *)
Theorem program_keeps_forward os w :
  forward w = true ->
  refs_later_along os w = true ->
  forward (run_ops os w) = true.
Proof.
  revert w. induction os as [|o os IH]; intros w Hfw Hrefs; [done|].
  cbn [run_ops refs_later_along] in *. apply andb_true_iff in Hrefs as [Ho Hos].
  apply IH; [by apply run_op_forward | done].
Qed.

(** X16 on the program of the module's docstring, cut short:
    [x = XMLBuilder('root'); x.some_tag; x.some_tag_with_data('text', a='12');
    with x.some_tree(a='1'): with x.data: x.mmm; x.node(val='0')]. *)
Lemma program_keeps_forward_witness :
  let program :=
    [NewBuilder "root" [] []; BuilderGetattr 0 "some_tag";
     BuilderGetattr 0 "some_tag_with_data";
     NodeCall 2 [PStr "text"] [(PStr "a", PStr "12")];
     BuilderGetattr 0 "some_tree"; NodeCall 3 [] [(PStr "a", PStr "1")];
     NodeEnter 3; BuilderGetattr 0 "data"; NodeEnter 4;
     BuilderGetattr 0 "mmm"; BuilderGetattr 0 "node";
     NodeCall 6 [] [(PStr "val", PStr "0")]; NodeExit 4; NodeExit 3] in
  (forward empty_world = true /\ refs_later_along program empty_world = true) /\
  forward (run_ops program empty_world) = true.
Proof.
  split; [split; reflexivity|].
  exact (program_keeps_forward
           [NewBuilder "root" [] []; BuilderGetattr 0 "some_tag";
            BuilderGetattr 0 "some_tag_with_data";
            NodeCall 2 [PStr "text"] [(PStr "a", PStr "12")];
            BuilderGetattr 0 "some_tree"; NodeCall 3 [] [(PStr "a", PStr "1")];
            NodeEnter 3; BuilderGetattr 0 "data"; NodeEnter 4;
            BuilderGetattr 0 "mmm"; BuilderGetattr 0 "node";
            NodeCall 6 [] [(PStr "val", PStr "0")]; NodeExit 4; NodeExit 3]
           empty_world eq_refl eq_refl).
Defined.

(** The docstring's program and the events of its document. *)
Example docstring_program_events :
  fst (XMLNode_toxml 4 0 ([] : list event)
         (run_ops
            [NewBuilder "root" [] []; BuilderGetattr 0 "some_tag";
             BuilderGetattr 0 "some_tag_with_data";
             NodeCall 2 [PStr "text"] [(PStr "a", PStr "12")];
             BuilderGetattr 0 "some_tree"; NodeCall 3 [] [(PStr "a", PStr "1")];
             NodeEnter 3; BuilderGetattr 0 "data"; NodeEnter 4;
             BuilderGetattr 0 "mmm"; BuilderGetattr 0 "node";
             NodeCall 6 [] [(PStr "val", PStr "0")]; NodeExit 4; NodeExit 3]
            empty_world))
  = Ok [Start "root" ∅;
        Start "some_tag" ∅; End "some_tag";
        Start "some_tag_with_data" {["a" := "12"]}; Data "text";
        End "some_tag_with_data";
        Start "some_tree" {["a" := "1"]};
        Start "data" ∅;
        Start "mmm" ∅; End "mmm";
        Start "node" {["val" := "0"]}; End "node";
        End "data";
        End "some_tree";
        End "root"].
Proof. vm_compute. reflexivity. Qed.
